(** * The npm configuration rewriter of [artifactory/commands/npm/common.go]

  A shallow embedding of the part of [common.go] that turns the output of
  [npm config list] into the project's temporary [.npmrc]:
  [setTypeRestriction], [restoreNpmrcAndError], [prepareConfigData] and
  [createTempNpmrc], together with the pieces of Go's [strings], [strconv]
  and [bufio] packages they call.

  Go strings are byte sequences; they are modelled as [string], whose
  characters ([ascii]) are the bytes. *)

From Stdlib Require Import String Ascii List Bool Arith ZArith Lia.
Import ListNotations.
Open Scope string_scope.
Open Scope bool_scope.

Set Implicit Arguments.

(** ** Go's [strings] and [strconv] *)

Module strings.

(** [s[n:]]; the whole of [s] is dropped when [n] exceeds its length. *)
Fixpoint drop (n : nat) (s : string) : string :=
  match n, s with
  | O, _ => s
  | S _, EmptyString => EmptyString
  | S n', String _ s' => drop n' s'
  end.

Definition rev (s : string) : string :=
  string_of_list_ascii (List.rev (list_ascii_of_string s)).

(** [strings.HasPrefix(s, prefix)]. *)
Definition HasPrefix (s prefix : string) : bool := String.prefix prefix s.

(** [strings.HasSuffix(s, suffix)]:
    [len(s) >= len(suffix) && s[len(s)-len(suffix):] == suffix]. *)
Definition HasSuffix (s suffix : string) : bool :=
  (String.length suffix <=? String.length s)%nat
  && String.eqb (drop (String.length s - String.length suffix) s) suffix.

(** [strings.Contains(s, substr)], that is [strings.Index(s, substr) >= 0]:
    [substr] starts at some offset of [s]. *)
Fixpoint Contains (s substr : string) : bool :=
  HasPrefix s substr
  || match s with
     | EmptyString => false
     | String _ s' => Contains s' substr
     end.

(** [strings.Cut(s, sep)]: the text before and after the first instance of
    [sep], or [None] when [sep] does not occur in [s]. *)
Fixpoint Cut (s sep : string) : option (string * string) :=
  if HasPrefix s sep then Some (EmptyString, drop (String.length sep) s)
  else match s with
       | EmptyString => None
       | String c s' =>
           match Cut s' sep with
           | Some (before, after) => Some (String c before, after)
           | None => None
           end
       end.

(** [strings.SplitN(s, sep, n)] for a non-empty [sep] and [n >= 0]: at most
    [n] substrings, the last one being the unsplit remainder. *)
Fixpoint SplitN (s sep : string) (n : nat) : list string :=
  match n with
  | O => []
  | S O => [s]
  | S n' =>
      match Cut s sep with
      | Some (before, after) => before :: SplitN after sep n'
      | None => [s]
      end
  end.

(** [strings.Join(elems, sep)]. *)
Definition Join (elems : list string) (sep : string) : string :=
  String.concat sep elems.

(** The UTF-8 encodings of the runes for which [unicode.IsSpace] holds:
    U+0009..U+000D, U+0020, U+0085, U+00A0, U+1680, U+2000..U+200A,
    U+2028, U+2029, U+202F, U+205F and U+3000. *)
Definition spaceRunes : list string :=
  List.map string_of_list_ascii
    [ ["009"]; ["010"]; ["011"]; ["012"]; ["013"]; ["032"];
      ["194"; "133"]; ["194"; "160"];
      ["225"; "154"; "128"];
      ["226"; "128"; "128"]; ["226"; "128"; "129"]; ["226"; "128"; "130"];
      ["226"; "128"; "131"]; ["226"; "128"; "132"]; ["226"; "128"; "133"];
      ["226"; "128"; "134"]; ["226"; "128"; "135"]; ["226"; "128"; "136"];
      ["226"; "128"; "137"]; ["226"; "128"; "138"];
      ["226"; "128"; "168"]; ["226"; "128"; "169"]; ["226"; "128"; "175"];
      ["226"; "129"; "159"];
      ["227"; "128"; "128"] ]%char.

(** The rest of [s] after its first rune when that rune is white space. *)
Definition afterSpace (runes : list string) (s : string) : option string :=
  match List.find (HasPrefix s) runes with
  | Some r => Some (drop (String.length r) s)
  | None => None
  end.

Fixpoint trimLeft (runes : list string) (fuel : nat) (s : string) : string :=
  match fuel with
  | O => s
  | S fuel' =>
      match afterSpace runes s with
      | Some s' => trimLeft runes fuel' s'
      | None => s
      end
  end.

(** [strings.TrimLeftFunc(s, unicode.IsSpace)]: every removed rune takes
    at least one byte, so [len(s)] rounds are enough. *)
Definition TrimLeftSpace (s : string) : string :=
  trimLeft spaceRunes (String.length s) s.

(** [strings.TrimRightFunc(s, unicode.IsSpace)]: the same on the reversed
    bytes. A white-space rune is the last rune of [s] exactly when [s] ends
    with its encoding. *)
Definition TrimRightSpace (s : string) : string :=
  rev (trimLeft (List.map rev spaceRunes) (String.length s) (rev s)).

(** [strings.TrimSpace(s)]. *)
Definition TrimSpace (s : string) : string :=
  TrimRightSpace (TrimLeftSpace s).

End strings.

Module strconv.

(** [strconv.FormatBool(b)]. *)
Definition FormatBool (b : bool) : string :=
  if b then "true" else "false".

End strconv.


(** The line feed, Go's ["\n"]. *)
Definition nl : string := String "010" EmptyString.

(** ** Errors

    A Go [error] is modelled by its message; [option error] is an [error]
    that may be [nil]. *)

Inductive error : Type :=
| errorString (msg : string).

Definition Error (e : error) : string :=
  match e with errorString msg => msg end.

Module errorutils.

(** [errorutils.CheckError(err)] returns its argument. *)
Definition CheckError (err : option error) : option error := err.

(** [errorutils.CheckErrorf(format, a...)]: a new error whose message is the
    formatted text, given here already formatted. *)
Definition CheckErrorf (formatted : string) : error := errorString formatted.

End errorutils.

(** ** Go's [bufio.Scanner] with the default split function [ScanLines] *)

Module bufio.

(** [bufio.MaxScanTokenSize]: the buffer of a [Scanner] never grows beyond
    this size. *)
Definition MaxScanTokenSize : Z := 64 * 1024.

Definition ErrTooLong : error := errorString "bufio.Scanner: token too long".

(** A line fits when it is found in a full buffer together with its line
    feed, or at the end of the input in a buffer that is not full. *)
Definition tooLong (line : string) : bool :=
  (MaxScanTokenSize <=? Z.of_nat (String.length line))%Z.

(** [dropCR]: a single trailing carriage return is removed. *)
Fixpoint dropCR (data : string) : string :=
  match data with
  | EmptyString => EmptyString
  | String c EmptyString => if Ascii.eqb c "013" then EmptyString else data
  | String c rest => String c (dropCR rest)
  end.

(** The runs of bytes between the line feeds of [s]; the last run is what
    follows the last line feed. *)
Fixpoint segments (s : string) : list string :=
  match s with
  | EmptyString => [EmptyString]
  | String c s' =>
      if Ascii.eqb c "010" then EmptyString :: segments s'
      else match segments s' with
           | seg :: segs => String c seg :: segs
           | [] => [String c EmptyString]
           end
  end.

(** What a scanner has produced when [Scan] returns [false]: the texts
    [Text] gave after each successful [Scan], and the result of [Err]. *)
Record Scanner : Type := {
  tokens : list string;
  Err : option error
}.

(** Scanning stops with [ErrTooLong] at the first line that does not fit;
    an empty run after the last line feed is not a line. *)
Fixpoint scan (segs : list string) : Scanner :=
  match segs with
  | [] => {| tokens := []; Err := None |}
  | seg :: rest =>
      match rest with
      | [] =>
          if String.eqb seg EmptyString then {| tokens := []; Err := None |}
          else if tooLong seg then {| tokens := []; Err := Some ErrTooLong |}
          else {| tokens := [dropCR seg]; Err := None |}
      | _ :: _ =>
          if tooLong seg then {| tokens := []; Err := Some ErrTooLong |}
          else let sc := scan rest in
               {| tokens := dropCR seg :: tokens sc; Err := Err sc |}
      end
  end.

(** [bufio.NewScanner(strings.NewReader(s))], run to its end. *)
Definition NewScanner (s : string) : Scanner := scan (segments s).

End bufio.

(** ** [biutils.TypeRestriction] *)

Inductive TypeRestriction : Type :=
| DefaultRestriction
| All
| DevOnly
| ProdOnly.

Definition TypeRestriction_eqb (a b : TypeRestriction) : bool :=
  match a, b with
  | DefaultRestriction, DefaultRestriction => true
  | All, All => true
  | DevOnly, DevOnly => true
  | ProdOnly, ProdOnly => true
  | _, _ => false
  end.

(** ** [CommonArgs] and its methods *)

Section Npm.

(** The state of the world outside the program: the files of the working
    directory. *)
Variable World : Type.

(** [isValidKey], of the same package, is not part of [common.go]: the
    filter that says which keys of [npm config list] may be copied. *)
Variable isValidKey : string -> bool.

(** Modelled from the spec: [addArrayConfigs], of the same package, is not
    part of [common.go]. It re-emits each element of a bracketed value as a
    repeated key assignment, appended to the configuration gathered so far;
    [arrayEntries key value] stands for the entries it appends. *)
Variable arrayEntries : string -> string -> list string.

Definition addArrayConfigs (conf : list string) (key arrayValue : string) : list string :=
  (conf ++ arrayEntries key arrayValue)%list.

(** [removeNpmrcIfExists], of the same package, and [ioutil.WriteFile]
    act on the world. [npmrcPath dir] is
    [filepath.Join(dir, npmrcFileName)]. *)
Variable removeNpmrcIfExists : string -> World -> option error * World.
Variable WriteFile : string -> string -> World -> option error * World.
Variable npmrcPath : string -> string.

(** The fields of [CommonArgs] that the modelled methods read or write. *)
Record CommonArgs : Type := {
  jsonOutput : bool;
  restoreNpmrcFunc : World -> option error * World;
  workingDirectory : string;
  registry : string;
  npmAuth : string;
  typeRestriction : TypeRestriction
}.

(** [com.typeRestriction = t]. *)
Definition withTypeRestriction (com : CommonArgs) (t : TypeRestriction) : CommonArgs :=
  {| jsonOutput := jsonOutput com;
     restoreNpmrcFunc := restoreNpmrcFunc com;
     workingDirectory := workingDirectory com;
     registry := registry com;
     npmAuth := npmAuth com;
     typeRestriction := t |}.

Definition setTypeRestriction (com : CommonArgs) (key value : string) : CommonArgs :=
  if String.eqb key "omit" then
    if strings.Contains value "dev" then withTypeRestriction com ProdOnly
    else withTypeRestriction com All
  else if TypeRestriction_eqb (typeRestriction com) DefaultRestriction then
    if String.eqb key "only" then
      if strings.Contains value "prod" then withTypeRestriction com ProdOnly
      else if strings.Contains value "dev" then withTypeRestriction com DevOnly
      else com
    else if String.eqb key "production" && strings.Contains value "true" then
      withTypeRestriction com ProdOnly
    else com
  else com.

(** The message is that of [fmt.Sprintf] applied to the format
    ["Two errors occurred:\n %s\n %s"]. *)
Definition restoreNpmrcAndError (com : CommonArgs) (err : error) (w : World) : error * World :=
  match restoreNpmrcFunc com w with
  | (Some restoreErr, w') =>
      (errorutils.CheckErrorf
         ("Two errors occurred:" ++ nl ++ " " ++ Error restoreErr ++ nl ++ " " ++ Error err), w')
  | (None, w') => (err, w')
  end.

(** The body of the loop of [prepareConfigData] for one scanned line. *)
Definition scanOption (com : CommonArgs) (filteredConf : list string) (currOption : string)
  : list string * CommonArgs :=
  if negb (String.eqb currOption "") then
    let splitOption := strings.SplitN currOption "=" 2 in
    let key := strings.TrimSpace (nth 0 splitOption "") in
    if (List.length splitOption =? 2)%nat && isValidKey key then
      let value := strings.TrimSpace (nth 1 splitOption "") in
      let filteredConf' :=
        if strings.HasPrefix value "[" && strings.HasSuffix value "]"
        then addArrayConfigs filteredConf key value
        else (filteredConf ++ [currOption; nl])%list in
      (filteredConf', setTypeRestriction com key value)
    else if strings.HasPrefix (nth 0 splitOption "") "@" then
      ((filteredConf ++ [nth 0 splitOption ""; " = "; registry com; nl])%list, com)
    else (filteredConf, com)
  else (filteredConf, com).

(** [for scanner.Scan() { ... }]. *)
Fixpoint scanLoop (com : CommonArgs) (filteredConf : list string) (lines : list string)
  : list string * CommonArgs :=
  match lines with
  | [] => (filteredConf, com)
  | currOption :: rest =>
      let (filteredConf', com') := scanOption com filteredConf currOption in
      scanLoop com' filteredConf' rest
  end.

(** [prepareConfigData] returns the bytes or the error, and the receiver as
    the loop has left it. *)
Definition prepareConfigData (com : CommonArgs) (data : string) : (string + error) * CommonArgs :=
  let scanner := bufio.NewScanner data in
  let (filteredConf, com') := scanLoop com [] (bufio.tokens scanner) in
  match errorutils.CheckError (bufio.Err scanner) with
  | Some err => (inr err, com')
  | None =>
      let filteredConf := (filteredConf ++ ["json = "; strconv.FormatBool (jsonOutput com'); nl])%list in
      let filteredConf := (filteredConf ++ ["registry = "; registry com'; nl])%list in
      let filteredConf := (filteredConf ++ [npmAuth com'])%list in
      (inl (strings.Join filteredConf ""), com')
  end.

(** [createTempNpmrc]; [GetConfigList] is what [npm.GetConfigList] returned.
    Its error is assigned to [err] and overwritten by the next assignment. *)
Definition createTempNpmrc (com : CommonArgs) (GetConfigList : string * option error) (w : World)
  : option error * CommonArgs * World :=
  let (data, err) := GetConfigList in
  let (result, com') := prepareConfigData com data in
  match result with
  | inr err => (errorutils.CheckError (Some err), com', w)
  | inl configData =>
      match removeNpmrcIfExists (workingDirectory com') w with
      | (Some err, w') => (Some err, com', w')
      | (None, w') =>
          let (err, w'') := WriteFile (npmrcPath (workingDirectory com')) configData w' in
          (errorutils.CheckError err, com', w'')
      end
  end.

End Npm.

Arguments CommonArgs World : clear implicits.

(** ** The resolver's rules, as the specification words them *)

(** The policy an [omit] value stands for: development dependencies omitted
    gives [ProdOnly], anything else [All]. *)
Definition omitPolicy (value : string) : TypeRestriction :=
  if strings.Contains value "dev" then ProdOnly else All.

(** The policy a legacy pair stands for, if any: [only] with a value
    containing "prod" gives [ProdOnly], else with a value containing "dev"
    gives [DevOnly]; [production] with a value containing "true" gives
    [ProdOnly]. *)
Definition legacyPolicy (key value : string) : option TypeRestriction :=
  if String.eqb key "only" then
    if strings.Contains value "prod" then Some ProdOnly
    else if strings.Contains value "dev" then Some DevOnly
    else None
  else if String.eqb key "production" then
    if strings.Contains value "true" then Some ProdOnly else None
  else None.

(** The left part of a line: what precedes its first [=], or the whole line
    when it has none. *)
Definition leftPart (line : string) : string :=
  nth 0 (strings.SplitN line "=" 2) "".

(** A line that assigns the key [omit]. *)
Definition isOmitLine (line : string) : bool :=
  match strings.SplitN line "=" 2 with
  | [before; _] => String.eqb (strings.TrimSpace before) "omit"
  | _ => false
  end.

(** The (key, value) pair of a line that is an assignment to a key of the
    allow-list: the pairs the resolver observes. *)
Definition observedPair (isValidKey : string -> bool) (line : string) : option (string * string) :=
  match strings.SplitN line "=" 2 with
  | [before; after] =>
      if isValidKey (strings.TrimSpace before)
      then Some (strings.TrimSpace before, strings.TrimSpace after)
      else None
  | _ => None
  end.

(** The policy of a line that is an observed legacy pair. *)
Definition legacyLine (isValidKey : string -> bool) (line : string) : option TypeRestriction :=
  match observedPair isValidKey line with
  | Some (key, value) => legacyPolicy key value
  | None => None
  end.

(** The resolver fed with one line: it moves on the observed pairs only. *)
Definition observe (World : Type) (isValidKey : string -> bool)
  (com : CommonArgs World) (line : string) : CommonArgs World :=
  match observedPair isValidKey line with
  | Some (key, value) => setTypeRestriction com key value
  | None => com
  end.

Definition isNone {A : Type} (o : option A) : bool :=
  match o with
  | Some _ => false
  | None => true
  end.

(** ** Instances of the collaborators, for the concrete scenarios *)

(** An allow-list given by its keys. *)
Definition allowList (keys : list string) (key : string) : bool :=
  existsb (String.eqb key) keys.

(** An allow-list given by its keys that, as the filter of the package
    does, refuses every key beginning with [@]. *)
Definition scopedRefused (keys : list string) (key : string) : bool :=
  negb (strings.HasPrefix key "@") && allowList keys key.

(** No byte of [s] is [@]. *)
Fixpoint noAt (s : string) : bool :=
  match s with
  | EmptyString => true
  | String c s' => negb (Ascii.eqb c "@") && noAt s'
  end.

(** The elements of a comma-separated text. *)
Fixpoint commaSplit (s : string) : list string :=
  match s with
  | EmptyString => [EmptyString]
  | String c s' =>
      if Ascii.eqb c "," then EmptyString :: commaSplit s'
      else match commaSplit s' with
           | e :: es => String c e :: es
           | [] => [String c EmptyString]
           end
  end.

(** Array entries in the syntax of [.npmrc]: one [key[] = element] line for
    each element between the brackets. *)
Definition npmrcArrayEntries (key arrayValue : string) : list string :=
  if String.eqb arrayValue "[]" then []
  else
    let inner := strings.rev (strings.drop 1 (strings.rev (strings.drop 1 arrayValue))) in
    List.flat_map (fun val => [key ++ "[] = " ++ val; nl]) (commaSplit inner).

(** A world that is the content of the project's [.npmrc], [None] when the
    file does not exist, in which removing and writing succeed. *)
Definition FileWorld : Type := option string.

Definition removeFile (dir : string) (w : FileWorld) : option error * FileWorld :=
  (None, None).

Definition writeFile (path data : string) (w : FileWorld) : option error * FileWorld :=
  (None, Some data).

(** [filepath.Join(dir, ".npmrc")] for a directory in clean form, without
    a trailing separator. *)
Definition joinPath (dir : string) : string := dir ++ "/.npmrc".

(** A restore function that succeeds and one that fails. *)
Definition restoreOk (w : FileWorld) : option error * FileWorld := (None, w).

Definition restoreFails (w : FileWorld) : option error * FileWorld :=
  (Some (errorString "rename failed"), w).

(** The arguments of the scenarios: registry [https://auth], credential
    [//auth.line], JSON output on, no restriction yet. *)
Definition scenarioArgs (restore : FileWorld -> option error * FileWorld) : CommonArgs FileWorld :=
  {| jsonOutput := true;
     restoreNpmrcFunc := restore;
     workingDirectory := "/project";
     registry := "https://auth";
     npmAuth := "//auth.line";
     typeRestriction := DefaultRestriction |}.

(** The dump of the specification's scenario. *)
Definition scenarioDump : string :=
  "omit = [dev]" ++ nl ++ "only = production" ++ nl
  ++ "registry = https://old" ++ nl ++ "@myscope = https://old2".

(** ** [setJsonOutput] *)

(** [com.jsonOutput = b]. *)
Definition withJsonOutput (World : Type) (com : CommonArgs World) (b : bool) : CommonArgs World :=
  {| jsonOutput := b;
     restoreNpmrcFunc := restoreNpmrcFunc com;
     workingDirectory := workingDirectory com;
     registry := registry com;
     npmAuth := npmAuth com;
     typeRestriction := typeRestriction com |}.

(** [setJsonOutput]; [ConfigGet] is what
    [npm.ConfigGet(com.npmArgs, "json", com.executablePath)] returned. *)
Definition setJsonOutput (World : Type) (com : CommonArgs World) (ConfigGet : string * option error)
  : option error * CommonArgs World :=
  let (jsonOutput, err) := ConfigGet in
  match err with
  | Some err => (Some err, com)
  | None => (None, withJsonOutput com (negb (String.eqb jsonOutput "false")))
  end.

(** ** The resolver over a whole dump, in closed form *)

(** The value of a line that is an observed [omit] pair. *)
Definition observedOmit (isValidKey : string -> bool) (line : string) : option string :=
  match observedPair isValidKey line with
  | Some (key, value) => if String.eqb key "omit" then Some value else None
  | None => None
  end.

(** The value of the last observed [omit] pair of the lines. *)
Fixpoint lastOmit (isValidKey : string -> bool) (lines : list string) : option string :=
  match lines with
  | [] => None
  | line :: rest =>
      match lastOmit isValidKey rest with
      | Some value => Some value
      | None => observedOmit isValidKey line
      end
  end.

(** The policy of the first line that is an observed legacy pair with a
    policy. *)
Fixpoint firstLegacy (isValidKey : string -> bool) (lines : list string) : option TypeRestriction :=
  match lines with
  | [] => None
  | line :: rest =>
      match legacyLine isValidKey line with
      | Some t => Some t
      | None => firstLegacy isValidKey rest
      end
  end.

(** The restriction after the lines, from the restriction before them: the
    last [omit] decides; without one, a restriction already set stays, and
    an unset one takes the first legacy policy. *)
Definition resolved (isValidKey : string -> bool) (before : TypeRestriction) (lines : list string)
  : TypeRestriction :=
  match lastOmit isValidKey lines with
  | Some value => omitPolicy value
  | None =>
      if TypeRestriction_eqb before DefaultRestriction then
        match firstLegacy isValidKey lines with
        | Some t => t
        | None => DefaultRestriction
        end
      else before
  end.

(** A line of [n] bytes [a], to try the limit of the scanner. *)
Definition longLine (n : N) : string :=
  N.iter n (String "a") EmptyString.


(** * Properties *)

Arguments strings.TrimSpace : simpl never.
Arguments strings.HasPrefix : simpl never.
Arguments strings.HasSuffix : simpl never.
Arguments strings.Contains : simpl never.
Arguments strings.SplitN : simpl never.
Arguments strings.Join : simpl never.

(** ** Strings *)

Lemma append_nil_r (s : string) : s ++ "" = s.
Proof. induction s as [|c s IH]; simpl; [reflexivity | now rewrite IH]. Qed.

Lemma append_assoc (s1 s2 s3 : string) : (s1 ++ s2) ++ s3 = s1 ++ s2 ++ s3.
Proof. induction s1 as [|c s1 IH]; simpl; [reflexivity | now rewrite IH]. Qed.

Lemma length_append (s1 s2 : string) :
  String.length (s1 ++ s2) = String.length s1 + String.length s2.
Proof. induction s1 as [|c s1 IH]; simpl; [reflexivity | now rewrite IH]. Qed.

Lemma HasPrefix_append (prefix s : string) : strings.HasPrefix (prefix ++ s) prefix = true.
Proof.
  unfold strings.HasPrefix.
  induction prefix as [|c p IH]; simpl.
  - now destruct s.
  - destruct (ascii_dec c c) as [_|ne]; [exact IH | now elim ne].
Qed.

Lemma Contains_eq (s substr : string) :
  strings.Contains s substr =
  strings.HasPrefix s substr
  || match s with
     | EmptyString => false
     | String _ s' => strings.Contains s' substr
     end.
Proof. destruct s; reflexivity. Qed.

Lemma Contains_HasPrefix (s substr : string) :
  strings.HasPrefix s substr = true -> strings.Contains s substr = true.
Proof. intros H. rewrite Contains_eq, H. reflexivity. Qed.

Lemma Contains_here (substr s : string) : strings.Contains (substr ++ s) substr = true.
Proof. apply Contains_HasPrefix, HasPrefix_append. Qed.

Lemma Contains_later (before s substr : string) :
  strings.Contains s substr = true -> strings.Contains (before ++ s) substr = true.
Proof.
  intros H. induction before as [|c b IH]; [exact H|].
  rewrite Contains_eq. simpl. rewrite IH. apply orb_true_r.
Qed.

Lemma Contains_middle (before substr after : string) :
  strings.Contains (before ++ substr ++ after) substr = true.
Proof. apply Contains_later, Contains_here. Qed.

Lemma Cut_eq (s sep : string) :
  strings.Cut s sep =
  if strings.HasPrefix s sep then Some (EmptyString, strings.drop (String.length sep) s)
  else match s with
       | EmptyString => None
       | String c s' =>
           match strings.Cut s' sep with
           | Some (before, after) => Some (String c before, after)
           | None => None
           end
       end.
Proof. destruct s; reflexivity. Qed.

Lemma Cut_absent (s sep : string) :
  strings.Contains s sep = false -> strings.Cut s sep = None.
Proof.
  induction s as [|c s IH]; rewrite Contains_eq; intros H;
    apply orb_false_elim in H as [Hp Hc]; rewrite Cut_eq, Hp; [reflexivity|].
  now rewrite (IH Hc).
Qed.

Lemma SplitN_absent (s sep : string) :
  strings.Contains s sep = false -> strings.SplitN s sep 2 = [s].
Proof. intros H. unfold strings.SplitN. now rewrite (Cut_absent _ _ H). Qed.

Lemma Join_cons (x : string) (xs : list string) :
  strings.Join (x :: xs) "" = x ++ strings.Join xs "".
Proof.
  unfold strings.Join. destruct xs as [|y ys]; simpl; [now rewrite append_nil_r | reflexivity].
Qed.

Lemma Join_app (xs ys : list string) :
  strings.Join (xs ++ ys) "" = strings.Join xs "" ++ strings.Join ys "".
Proof.
  induction xs as [|x xs IH]; [reflexivity|].
  rewrite <- app_comm_cons, !Join_cons, IH, append_assoc. reflexivity.
Qed.

(** ** The resolver step *)

Section Resolver.

Variable World : Type.
Implicit Types (com : CommonArgs World) (key value : string).

Lemma TypeRestriction_eqb_eq (a b : TypeRestriction) :
  TypeRestriction_eqb a b = true <-> a = b.
Proof. destruct a, b; simpl; split; congruence. Qed.

Lemma TypeRestriction_eqb_neq (a b : TypeRestriction) :
  TypeRestriction_eqb a b = false <-> a <> b.
Proof. destruct a, b; simpl; split; congruence. Qed.

Lemma setTypeRestriction_omit com value :
  typeRestriction (setTypeRestriction com "omit" value) = omitPolicy value.
Proof.
  unfold setTypeRestriction, omitPolicy. simpl.
  destruct (strings.Contains value "dev"); reflexivity.
Qed.

Lemma setTypeRestriction_kept com key value :
  typeRestriction com <> DefaultRestriction -> key <> "omit" ->
  setTypeRestriction com key value = com.
Proof.
  intros Hset Hkey. unfold setTypeRestriction.
  apply String.eqb_neq in Hkey. rewrite Hkey.
  apply TypeRestriction_eqb_neq in Hset. now rewrite Hset.
Qed.

Lemma setTypeRestriction_never_unset com key value :
  typeRestriction com <> DefaultRestriction ->
  typeRestriction (setTypeRestriction com key value) <> DefaultRestriction.
Proof.
  intros Hset. destruct (String.eqb key "omit") eqn:Hkey.
  - apply String.eqb_eq in Hkey. subst key. rewrite setTypeRestriction_omit.
    unfold omitPolicy. destruct (strings.Contains value "dev"); discriminate.
  - apply String.eqb_neq in Hkey. now rewrite setTypeRestriction_kept.
Qed.

Lemma setTypeRestriction_legacy com key value :
  typeRestriction com = DefaultRestriction -> key <> "omit" ->
  typeRestriction (setTypeRestriction com key value) =
  match legacyPolicy key value with
  | Some t => t
  | None => DefaultRestriction
  end.
Proof.
  intros Hunset Hkey. unfold setTypeRestriction, legacyPolicy.
  apply String.eqb_neq in Hkey. rewrite Hkey, Hunset. simpl.
  destruct (String.eqb key "only").
  - destruct (strings.Contains value "prod"); [reflexivity|].
    destruct (strings.Contains value "dev"); [reflexivity | exact Hunset].
  - destruct (String.eqb key "production"); simpl; [|exact Hunset].
    destruct (strings.Contains value "true"); [reflexivity | exact Hunset].
Qed.

Lemma setTypeRestriction_fields com key value :
  jsonOutput (setTypeRestriction com key value) = jsonOutput com
  /\ registry (setTypeRestriction com key value) = registry com
  /\ npmAuth (setTypeRestriction com key value) = npmAuth com
  /\ workingDirectory (setTypeRestriction com key value) = workingDirectory com.
Proof.
  unfold setTypeRestriction.
  repeat match goal with
         | |- context [if ?b then _ else _] => destruct b
         end; repeat split; reflexivity.
Qed.

End Resolver.

(** ** The loop of [prepareConfigData] *)

Section Loop.

Variable World : Type.
Variable isValidKey : string -> bool.
Variable arrayEntries : string -> string -> list string.
Implicit Types (com : CommonArgs World) (conf : list string) (line : string).

Local Abbreviation scanOption' := (scanOption isValidKey arrayEntries).
Local Abbreviation scanLoop' := (scanLoop isValidKey arrayEntries).
Local Abbreviation prepareConfigData' := (prepareConfigData isValidKey arrayEntries).
Local Abbreviation observe' := (@observe World isValidKey).

Lemma SplitN_empty : strings.SplitN "" "=" 2 = [""].
Proof. reflexivity. Qed.

(** The receiver after one line is the resolver fed with that line. *)
Lemma scanOption_state com conf line :
  snd (scanOption' com conf line) = observe' com line.
Proof.
  unfold scanOption, observe, observedPair.
  destruct (String.eqb line "") eqn:E; simpl.
  - apply String.eqb_eq in E. subst line. now rewrite SplitN_empty.
  - destruct (strings.SplitN line "=" 2) as [|a [|b [|c l]]]; simpl;
      try reflexivity; try (destruct (strings.HasPrefix _ "@"); reflexivity).
    destruct (isValidKey (strings.TrimSpace a)); simpl; [reflexivity|].
    destruct (strings.HasPrefix a "@"); reflexivity.
Qed.

(** A line only appends to the configuration gathered so far. *)
Lemma scanOption_appends com conf line :
  fst (scanOption' com conf line) = (conf ++ fst (scanOption' com [] line))%list.
Proof.
  unfold scanOption, addArrayConfigs.
  destruct (negb (String.eqb line "")); simpl; [|now rewrite app_nil_r].
  destruct ((List.length (strings.SplitN line "=" 2) =? 2)%nat && _); simpl.
  - destruct (strings.HasPrefix _ "[" && _); reflexivity.
  - destruct (strings.HasPrefix _ "@"); simpl; [reflexivity | now rewrite app_nil_r].
Qed.

Lemma observe_fields com line :
  jsonOutput (observe' com line) = jsonOutput com
  /\ registry (observe' com line) = registry com
  /\ npmAuth (observe' com line) = npmAuth com
  /\ workingDirectory (observe' com line) = workingDirectory com.
Proof.
  unfold observe. destruct (observedPair isValidKey line) as [[key value]|].
  - apply setTypeRestriction_fields.
  - repeat split.
Qed.

Lemma scanLoop_app com conf (l1 l2 : list string) :
  scanLoop' com conf (l1 ++ l2) =
  scanLoop' (snd (scanLoop' com conf l1)) (fst (scanLoop' com conf l1)) l2.
Proof.
  revert com conf. induction l1 as [|line l1 IH]; intros com conf; simpl; [reflexivity|].
  destruct (scanOption' com conf line) as [conf' com']. apply IH.
Qed.

Lemma scanLoop_state com conf (lines : list string) :
  snd (scanLoop' com conf lines) = fold_left observe' lines com.
Proof.
  revert com conf. induction lines as [|line lines IH]; intros com conf; simpl; [reflexivity|].
  rewrite <- (scanOption_state com conf line).
  destruct (scanOption' com conf line) as [conf' com']. apply IH.
Qed.

Lemma scanLoop_appends com conf (lines : list string) :
  fst (scanLoop' com conf lines) = (conf ++ fst (scanLoop' com [] lines))%list.
Proof.
  revert com conf. induction lines as [|line lines IH]; intros com conf; simpl.
  - now rewrite app_nil_r.
  - pose proof (scanOption_appends com conf line) as Ha.
    pose proof (scanOption_state com conf line) as Hs.
    pose proof (scanOption_state com [] line) as Hs0.
    destruct (scanOption' com conf line) as [conf' com'].
    destruct (scanOption' com [] line) as [ext com0]. simpl in *. subst.
    rewrite IH, (IH _ ext), app_assoc. reflexivity.
Qed.

Lemma fold_observe_fields (lines : list string) com :
  jsonOutput (fold_left observe' lines com) = jsonOutput com
  /\ registry (fold_left observe' lines com) = registry com
  /\ npmAuth (fold_left observe' lines com) = npmAuth com.
Proof.
  revert com. induction lines as [|line lines IH]; intros com; simpl; [repeat split|].
  destruct (IH (observe' com line)) as (Hj & Hr & Ha).
  destruct (observe_fields com line) as (Hj' & Hr' & Ha' & _).
  rewrite Hj, Hr, Ha. auto.
Qed.

(** The configuration gathered from the lines depends on the receiver
    through its registry only. *)
Lemma scanOption_output com com2 conf line :
  registry com = registry com2 ->
  fst (scanOption' com conf line) = fst (scanOption' com2 conf line).
Proof.
  intros Hr. unfold scanOption. rewrite Hr.
  destruct (negb (String.eqb line "")); [|reflexivity].
  destruct ((List.length (strings.SplitN line "=" 2) =? 2)%nat && _); [reflexivity|].
  destruct (strings.HasPrefix _ "@"); reflexivity.
Qed.

Lemma scanLoop_output com com2 conf (lines : list string) :
  registry com = registry com2 ->
  fst (scanLoop' com conf lines) = fst (scanLoop' com2 conf lines).
Proof.
  revert com com2 conf. induction lines as [|line lines IH]; intros com com2 conf Hr; simpl;
    [reflexivity|].
  pose proof (scanOption_output com com2 conf line Hr) as Ho.
  pose proof (scanOption_state com conf line) as Hs.
  pose proof (scanOption_state com2 conf line) as Hs2.
  destruct (scanOption' com conf line) as [conf' com'].
  destruct (scanOption' com2 conf line) as [conf2 com2']. simpl in *. subst.
  apply IH.
  destruct (observe_fields com line) as (_ & H1 & _).
  destruct (observe_fields com2 line) as (_ & H2 & _). congruence.
Qed.

(** What [prepareConfigData'] returns when the scanner reports no error. *)
Lemma prepareConfigData_scanned com data :
  bufio.Err (bufio.NewScanner data) = None ->
  prepareConfigData' com data =
  (inl (strings.Join (fst (scanLoop' com [] (bufio.tokens (bufio.NewScanner data)))) ""
        ++ "json = " ++ strconv.FormatBool (jsonOutput com) ++ nl
        ++ "registry = " ++ registry com ++ nl
        ++ npmAuth com),
   fold_left observe' (bufio.tokens (bufio.NewScanner data)) com).
Proof.
  intros Herr. unfold prepareConfigData.
  pose proof (scanLoop_state com [] (bufio.tokens (bufio.NewScanner data))) as Hs.
  destruct (scanLoop' com [] (bufio.tokens (bufio.NewScanner data))) as [conf com'].
  simpl in Hs. subst com'. rewrite Herr. unfold errorutils.CheckError.
  destruct (fold_observe_fields (bufio.tokens (bufio.NewScanner data)) com) as (Hj & Hr & Ha).
  rewrite Hj, Hr, Ha. f_equal. f_equal.
  rewrite !Join_app, !Join_cons. change (strings.Join [] "") with "".
  rewrite !append_nil_r, !append_assoc. reflexivity.
Qed.

Lemma prepareConfigData_state com data :
  snd (prepareConfigData' com data) =
  fold_left observe' (bufio.tokens (bufio.NewScanner data)) com.
Proof.
  unfold prepareConfigData.
  pose proof (scanLoop_state com [] (bufio.tokens (bufio.NewScanner data))) as Hs.
  destruct (scanLoop' com [] (bufio.tokens (bufio.NewScanner data))) as [conf com'].
  destruct (errorutils.CheckError _); exact Hs.
Qed.

End Loop.

(** ** The resolver over a stream of lines *)

Section Stream.

Variable World : Type.
Variable isValidKey : string -> bool.
Implicit Types (com : CommonArgs World) (line : string) (lines : list string).

Local Abbreviation observe' := (@observe World isValidKey).

Lemma legacyPolicy_set (key value : string) (t : TypeRestriction) :
  legacyPolicy key value = Some t -> t <> DefaultRestriction.
Proof.
  unfold legacyPolicy.
  repeat match goal with
         | |- context [if ?b then _ else _] => destruct b
         end; intros H; inversion H; discriminate.
Qed.

Lemma omitPolicy_set (value : string) : omitPolicy value <> DefaultRestriction.
Proof. unfold omitPolicy. destruct (strings.Contains value "dev"); discriminate. Qed.

Lemma legacyLine_set line (t : TypeRestriction) :
  legacyLine isValidKey line = Some t -> t <> DefaultRestriction.
Proof.
  unfold legacyLine. destruct (observedPair isValidKey line) as [[key value]|];
    [apply legacyPolicy_set | discriminate].
Qed.

(** A line that assigns an allowed [omit] sets the policy of its value. *)
Lemma observe_omit com line before after :
  strings.SplitN line "=" 2 = [before; after] ->
  strings.TrimSpace before = "omit" ->
  isValidKey "omit" = true ->
  typeRestriction (observe' com line) = omitPolicy (strings.TrimSpace after).
Proof.
  intros Hsplit Hkey Hvalid. unfold observe, observedPair.
  rewrite Hsplit, Hkey, Hvalid. apply setTypeRestriction_omit.
Qed.

(** Once the restriction is set, a line that does not assign [omit] leaves
    the receiver as it is. *)
Lemma observe_kept com line :
  typeRestriction com <> DefaultRestriction ->
  isOmitLine line = false ->
  observe' com line = com.
Proof.
  intros Hset Hline. unfold observe, observedPair. unfold isOmitLine in Hline.
  destruct (strings.SplitN line "=" 2) as [|a [|b [|c l]]]; try reflexivity.
  destruct (isValidKey (strings.TrimSpace a)); [|reflexivity].
  apply setTypeRestriction_kept; [exact Hset|]. now apply String.eqb_neq.
Qed.

(** While the restriction is unset, a line that does not assign [omit]
    sets the policy of its legacy pair, if it is one. *)
Lemma observe_legacy com line :
  typeRestriction com = DefaultRestriction ->
  isOmitLine line = false ->
  typeRestriction (observe' com line) =
  match legacyLine isValidKey line with
  | Some t => t
  | None => DefaultRestriction
  end.
Proof.
  intros Hunset Hline. unfold observe, legacyLine, observedPair. unfold isOmitLine in Hline.
  destruct (strings.SplitN line "=" 2) as [|a [|b [|c l]]]; try exact Hunset.
  destruct (isValidKey (strings.TrimSpace a)); [|exact Hunset].
  apply setTypeRestriction_legacy; [exact Hunset|]. now apply String.eqb_neq.
Qed.

Lemma fold_observe_kept lines com :
  typeRestriction com <> DefaultRestriction ->
  forallb (fun l => negb (isOmitLine l)) lines = true ->
  fold_left observe' lines com = com.
Proof.
  revert com. induction lines as [|line lines IH]; intros com Hset Hall; simpl; [reflexivity|].
  simpl in Hall. apply andb_true_iff in Hall as [Hline Hall].
  apply negb_true_iff in Hline.
  rewrite (observe_kept com line Hset Hline). now apply IH.
Qed.

Lemma fold_observe_unset lines com :
  typeRestriction com = DefaultRestriction ->
  forallb (fun l => negb (isOmitLine l)) lines = true ->
  forallb (fun l => isNone (legacyLine isValidKey l)) lines = true ->
  typeRestriction (fold_left observe' lines com) = DefaultRestriction.
Proof.
  revert com. induction lines as [|line lines IH]; intros com Hunset Hall Hnone; simpl;
    [exact Hunset|].
  simpl in Hall, Hnone.
  apply andb_true_iff in Hall as [Hline Hall]. apply andb_true_iff in Hnone as [Hl Hnone].
  apply negb_true_iff in Hline. apply IH; try assumption.
  rewrite (observe_legacy com line Hunset Hline).
  destruct (legacyLine isValidKey line); [discriminate | reflexivity].
Qed.

(** The resolver after an authoritative [omit] line. *)
Lemma fold_observe_omit com l1 line l2 before after :
  strings.SplitN line "=" 2 = [before; after] ->
  strings.TrimSpace before = "omit" ->
  isValidKey "omit" = true ->
  forallb (fun l => negb (isOmitLine l)) l2 = true ->
  typeRestriction (fold_left observe' (l1 ++ line :: l2) com) =
  omitPolicy (strings.TrimSpace after).
Proof.
  intros Hsplit Hkey Hvalid Hrest. rewrite fold_left_app. simpl.
  rewrite fold_observe_kept; try assumption.
  - now apply observe_omit with (before := before).
  - rewrite (observe_omit _ line Hsplit Hkey Hvalid). apply omitPolicy_set.
Qed.

(** The resolver after the first legacy pair of a stream without [omit]. *)
Lemma fold_observe_first com l1 line l2 t :
  typeRestriction com = DefaultRestriction ->
  forallb (fun l => negb (isOmitLine l)) (l1 ++ line :: l2) = true ->
  forallb (fun l => isNone (legacyLine isValidKey l)) l1 = true ->
  legacyLine isValidKey line = Some t ->
  typeRestriction (fold_left observe' (l1 ++ line :: l2) com) = t.
Proof.
  intros Hunset Hall Hnone Hline.
  rewrite forallb_app in Hall. apply andb_true_iff in Hall as [H1 H2].
  simpl in H2. apply andb_true_iff in H2 as [Hl H2]. apply negb_true_iff in Hl.
  rewrite fold_left_app. simpl.
  pose proof (fold_observe_unset l1 com Hunset H1 Hnone) as Hmid.
  pose proof (observe_legacy _ line Hmid Hl) as Hstep. rewrite Hline in Hstep.
  rewrite fold_observe_kept; try assumption.
  rewrite Hstep. now apply legacyLine_set with (line := line).
Qed.

End Stream.

(** * The claims *)

(** ** The resolver *)

(** C10. Once the restriction is set (different from [DefaultRestriction]),
    [setTypeRestriction] with a key other than [omit] leaves the receiver
    unchanged, and no pair whatever brings the restriction back to
    [DefaultRestriction]: only an [omit] pair can still change it. *)
Theorem setTypeRestriction_once_set :
  forall (World : Type) (com : CommonArgs World) (key value : string),
    typeRestriction com <> DefaultRestriction ->
    (key <> "omit" -> setTypeRestriction com key value = com)
    /\ typeRestriction (setTypeRestriction com key value) <> DefaultRestriction.
Proof.
  intros World com key value Hset. split.
  - intros Hkey. now apply setTypeRestriction_kept.
  - now apply setTypeRestriction_never_unset.
Qed.

Lemma setTypeRestriction_once_set_witness :
  setTypeRestriction (withTypeRestriction (scenarioArgs restoreOk) DevOnly) "only" "production"
  = withTypeRestriction (scenarioArgs restoreOk) DevOnly
  /\ typeRestriction
       (setTypeRestriction (withTypeRestriction (scenarioArgs restoreOk) DevOnly) "omit" "[]")
     <> DefaultRestriction.
Proof.
  split.
  - apply (setTypeRestriction_once_set
             (withTypeRestriction (scenarioArgs restoreOk) DevOnly) "only" "production");
      discriminate.
  - apply (setTypeRestriction_once_set
             (withTypeRestriction (scenarioArgs restoreOk) DevOnly) "omit" "[]");
      discriminate.
Defined.

(** C1. When the scanned dump holds a line that assigns [omit] (a key of
    the allow-list), and no later line assigns [omit] again, the
    restriction [prepareConfigData] leaves in the receiver is the policy of
    that line's value: [ProdOnly] when the value contains "dev", [All]
    otherwise. This holds whatever the lines before and after it are and
    whatever the restriction was before. *)
Theorem omit_is_authoritative :
  forall (World : Type) (isValidKey : string -> bool)
         (arrayEntries : string -> string -> list string)
         (com : CommonArgs World) (data : string)
         (l1 : list string) (line : string) (l2 : list string) (before after : string),
    bufio.tokens (bufio.NewScanner data) = (l1 ++ line :: l2)%list ->
    strings.SplitN line "=" 2 = [before; after] ->
    strings.TrimSpace before = "omit" ->
    isValidKey "omit" = true ->
    forallb (fun l => negb (isOmitLine l)) l2 = true ->
    typeRestriction (snd (prepareConfigData isValidKey arrayEntries com data))
    = (if strings.Contains (strings.TrimSpace after) "dev" then ProdOnly else All).
Proof.
  intros World isValidKey arrayEntries com data l1 line l2 before after
         Htokens Hsplit Hkey Hvalid Hrest.
  rewrite prepareConfigData_state, Htokens.
  now apply fold_observe_omit with (before := before).
Qed.

Lemma omit_is_authoritative_witness :
  typeRestriction
    (snd (prepareConfigData (allowList ["omit"; "only"; "production"]) npmrcArrayEntries
            (withTypeRestriction (scenarioArgs restoreOk) DevOnly)
            ("only = dev" ++ nl ++ "omit = [optional]" ++ nl ++ "production = true")))
  = All.
Proof.
  apply (omit_is_authoritative (allowList ["omit"; "only"; "production"]) npmrcArrayEntries
           (withTypeRestriction (scenarioArgs restoreOk) DevOnly)
           ("only = dev" ++ nl ++ "omit = [optional]" ++ nl ++ "production = true")
           ["only = dev"] "omit = [optional]" ["production = true"]
           (before := "omit ") (after := " [optional]"));
    reflexivity.
Defined.

(** C2. In a dump without any [omit] line, read with the restriction still
    unset, the first line that is an observed legacy pair with a policy
    ([only] with a value containing "prod": [ProdOnly], else containing
    "dev": [DevOnly]; [production] with a value containing "true":
    [ProdOnly]) decides the final restriction, and the restriction is that
    policy at every later point of the loop, whatever pairs follow. *)
Theorem first_legacy_pair_wins :
  forall (World : Type) (isValidKey : string -> bool)
         (arrayEntries : string -> string -> list string)
         (com : CommonArgs World) (data : string)
         (l1 : list string) (line : string) (l2 : list string) (t : TypeRestriction),
    typeRestriction com = DefaultRestriction ->
    bufio.tokens (bufio.NewScanner data) = (l1 ++ line :: l2)%list ->
    forallb (fun l => negb (isOmitLine l)) (l1 ++ line :: l2) = true ->
    forallb (fun l => isNone (legacyLine isValidKey l)) l1 = true ->
    legacyLine isValidKey line = Some t ->
    typeRestriction (snd (prepareConfigData isValidKey arrayEntries com data)) = t
    /\ forall l2a l2b : list string,
        l2 = (l2a ++ l2b)%list ->
        typeRestriction (snd (scanLoop isValidKey arrayEntries com [] (l1 ++ line :: l2a))) = t.
Proof.
  intros World isValidKey arrayEntries com data l1 line l2 t
         Hunset Htokens Hall Hnone Hline.
  split.
  - rewrite prepareConfigData_state, Htokens. now apply fold_observe_first.
  - intros l2a l2b Hl2. rewrite scanLoop_state. apply fold_observe_first; try assumption.
    subst l2. rewrite forallb_app in Hall |- *. cbn [forallb] in Hall |- *.
    rewrite forallb_app in Hall.
    apply andb_true_iff in Hall as [H1 Hall].
    apply andb_true_iff in Hall as [Hl Hall].
    apply andb_true_iff in Hall as [H2 _].
    now rewrite H1, Hl, H2.
Qed.

Lemma first_legacy_pair_wins_witness :
  typeRestriction
    (snd (prepareConfigData (allowList ["only"; "production"; "cache"]) npmrcArrayEntries
            (scenarioArgs restoreOk)
            ("cache = /tmp" ++ nl ++ "only = dev" ++ nl ++ "production = true" ++ nl ++ "only = prod")))
  = DevOnly.
Proof.
  apply (first_legacy_pair_wins (allowList ["only"; "production"; "cache"]) npmrcArrayEntries
           (scenarioArgs restoreOk)
           ("cache = /tmp" ++ nl ++ "only = dev" ++ nl ++ "production = true" ++ nl ++ "only = prod")
           ["cache = /tmp"] "only = dev" ["production = true"; "only = prod"]);
    reflexivity.
Defined.

(** ** Restoring after a failure *)

(** C3. When the restore function succeeds, [restoreNpmrcAndError] returns
    the original error itself. When it fails, the result is one error whose
    message is made of both messages, the restore failure first: it
    contains the message of the restore failure and that of the original
    error, and it is never the restore error alone. *)
Theorem restoreNpmrcAndError_reports :
  forall (World : Type) (com : CommonArgs World) (err : error) (w : World),
    (forall w' : World,
        restoreNpmrcFunc com w = (None, w') ->
        restoreNpmrcAndError com err w = (err, w'))
    /\ (forall (restoreErr : error) (w' : World),
           restoreNpmrcFunc com w = (Some restoreErr, w') ->
           exists combined : error,
             restoreNpmrcAndError com err w = (combined, w')
             /\ Error combined
                = "Two errors occurred:" ++ nl ++ " " ++ Error restoreErr
                  ++ nl ++ " " ++ Error err
             /\ strings.Contains (Error combined) (Error restoreErr) = true
             /\ strings.Contains (Error combined) (Error err) = true
             /\ combined <> restoreErr).
Proof.
  intros World com err w. unfold restoreNpmrcAndError. split.
  - intros w' Hrestore. now rewrite Hrestore.
  - intros restoreErr w' Hrestore. rewrite Hrestore.
    eexists. split; [reflexivity|]. split; [reflexivity|]. unfold errorutils.CheckErrorf.
    cbn [Error]. repeat split.
    + replace ("Two errors occurred:" ++ nl ++ " " ++ Error restoreErr ++ nl ++ " " ++ Error err)
        with (("Two errors occurred:" ++ nl ++ " ") ++ Error restoreErr ++ (nl ++ " " ++ Error err))
        by now rewrite !append_assoc.
      apply Contains_middle.
    + replace ("Two errors occurred:" ++ nl ++ " " ++ Error restoreErr ++ nl ++ " " ++ Error err)
        with (("Two errors occurred:" ++ nl ++ " " ++ Error restoreErr ++ nl ++ " ")
              ++ Error err ++ "")
        by now rewrite !append_assoc, append_nil_r.
      apply Contains_middle.
    + intros Heq. apply (f_equal Error) in Heq. apply (f_equal String.length) in Heq.
      cbn [Error] in Heq. rewrite !length_append in Heq. simpl in Heq. lia.
Qed.

Lemma restoreNpmrcAndError_reports_witness :
  restoreNpmrcAndError (scenarioArgs restoreOk) (errorString "write failed") None
  = (errorString "write failed", None)
  /\ exists combined : error,
      restoreNpmrcAndError (scenarioArgs restoreFails) (errorString "write failed") None
      = (combined, None)
      /\ strings.Contains (Error combined) "rename failed" = true
      /\ strings.Contains (Error combined) "write failed" = true
      /\ combined <> errorString "rename failed".
Proof.
  split.
  - apply (restoreNpmrcAndError_reports (scenarioArgs restoreOk) (errorString "write failed") None).
    reflexivity.
  - destruct (restoreNpmrcAndError_reports (scenarioArgs restoreFails)
                (errorString "write failed") None) as [_ Hfail].
    destruct (Hfail (errorString "rename failed") None eq_refl)
      as (combined & Hret & _ & Hrestore & Horig & Hne).
    exists combined. repeat split; assumption.
Defined.

(** ** Writing the temporary [.npmrc] *)

(** The error of [npm.GetConfigList] has no part in what [createTempNpmrc]
    does or returns. *)
Lemma createTempNpmrc_fetch_error_unused
  (World : Type) (isValidKey : string -> bool) (arrayEntries : string -> string -> list string)
  (removeNpmrcIfExists : string -> World -> option error * World)
  (WriteFile : string -> string -> World -> option error * World)
  (npmrcPath : string -> string)
  (com : CommonArgs World) (data : string) (err : option error) (w : World) :
  createTempNpmrc isValidKey arrayEntries removeNpmrcIfExists WriteFile npmrcPath
    com (data, err) w
  = createTempNpmrc isValidKey arrayEntries removeNpmrcIfExists WriteFile npmrcPath
      com (data, None) w.
Proof. reflexivity. Qed.

(** C4. The claim fails on the code: when [npm.GetConfigList] fails with no
    data, [createTempNpmrc] still writes the override file, made of the
    three synthesized entries only, and returns no error. *)
Theorem createTempNpmrc_fetch_failure_is_lost :
  createTempNpmrc (allowList ["omit"; "only"; "production"]) npmrcArrayEntries
    removeFile writeFile joinPath
    (scenarioArgs restoreOk) ("", Some (errorString "exit status 1")) None
  = (None, scenarioArgs restoreOk,
     Some ("json = true" ++ nl ++ "registry = https://auth" ++ nl ++ "//auth.line")).
Proof. reflexivity. Qed.

(** ** The output of [prepareConfigData] *)

Lemma drop_append (a b : string) : strings.drop (String.length a) (a ++ b) = b.
Proof. induction a as [|c a IH]; simpl; [now destruct b | exact IH]. Qed.

Lemma HasSuffix_append (a b : string) : strings.HasSuffix (a ++ b) b = true.
Proof.
  unfold strings.HasSuffix. rewrite length_append. apply andb_true_iff. split.
  - apply Nat.leb_le. lia.
  - rewrite Nat.add_sub, drop_append. apply String.eqb_refl.
Qed.

(** The scanner reports no error when every line is shorter than
    [MaxScanTokenSize]. *)
Lemma scan_fits (segs : list string) :
  forallb (fun seg => negb (bufio.tooLong seg)) segs = true ->
  bufio.Err (bufio.scan segs) = None.
Proof.
  induction segs as [|seg rest IH]; [reflexivity|].
  intros Hall. simpl in Hall. apply andb_true_iff in Hall as [Hseg Hrest].
  apply negb_true_iff in Hseg. simpl. rewrite Hseg.
  destruct rest as [|seg' rest'].
  - destruct (String.eqb seg ""); reflexivity.
  - exact (IH Hrest).
Qed.

Lemma NewScanner_fits (data : string) :
  forallb (fun seg => negb (bufio.tooLong seg)) (bufio.segments data) = true ->
  bufio.Err (bufio.NewScanner data) = None.
Proof. apply scan_fits. Qed.

(** C7. Whenever the scanner reads the dump without error, the bytes
    [prepareConfigData] returns are what the lines of the dump gave,
    followed by exactly [json = <flag>], [registry = <registry>] and the
    credential, in this order: the returned text ends with these three
    entries. *)
Theorem synthesized_entries_come_last :
  forall (World : Type) (isValidKey : string -> bool)
         (arrayEntries : string -> string -> list string)
         (com : CommonArgs World) (data : string),
    bufio.Err (bufio.NewScanner data) = None ->
    exists derived : string,
      derived
      = strings.Join
          (fst (scanLoop isValidKey arrayEntries com [] (bufio.tokens (bufio.NewScanner data)))) ""
      /\ fst (prepareConfigData isValidKey arrayEntries com data)
         = inl (derived
                ++ "json = " ++ strconv.FormatBool (jsonOutput com) ++ nl
                ++ "registry = " ++ registry com ++ nl
                ++ npmAuth com)
      /\ strings.HasSuffix
           (derived
            ++ "json = " ++ strconv.FormatBool (jsonOutput com) ++ nl
            ++ "registry = " ++ registry com ++ nl
            ++ npmAuth com)
           ("json = " ++ strconv.FormatBool (jsonOutput com) ++ nl
            ++ "registry = " ++ registry com ++ nl
            ++ npmAuth com) = true.
Proof.
  intros World isValidKey arrayEntries com data Herr.
  eexists. split; [reflexivity|]. split.
  - now rewrite prepareConfigData_scanned.
  - apply HasSuffix_append.
Qed.

Lemma synthesized_entries_come_last_witness :
  exists derived : string,
    fst (prepareConfigData (allowList ["cache"; "omit"]) npmrcArrayEntries
           (scenarioArgs restoreOk) ("cache = /tmp" ++ nl ++ "omit = [dev,optional]" ++ nl))
    = inl (derived ++ "json = true" ++ nl ++ "registry = https://auth" ++ nl ++ "//auth.line")
    /\ derived = "cache = /tmp" ++ nl ++ "omit[] = dev" ++ nl ++ "omit[] = optional" ++ nl.
Proof.
  destruct (synthesized_entries_come_last (allowList ["cache"; "omit"]) npmrcArrayEntries
              (scenarioArgs restoreOk) ("cache = /tmp" ++ nl ++ "omit = [dev,optional]" ++ nl)
              eq_refl) as (derived & Hderived & Hout & _).
  exists derived. split; [exact Hout | exact Hderived].
Defined.

(** C9. For the empty dump, [prepareConfigData] returns exactly the three
    synthesized entries, [json = <flag>], [registry = <registry>] and the
    credential, in this order, and leaves the receiver as it was: a
    restriction that was [DefaultRestriction] still is. *)
Theorem empty_dump_gives_synthesized_entries_only :
  forall (World : Type) (isValidKey : string -> bool)
         (arrayEntries : string -> string -> list string)
         (com : CommonArgs World),
    prepareConfigData isValidKey arrayEntries com ""
    = (inl ("json = " ++ strconv.FormatBool (jsonOutput com) ++ nl
            ++ "registry = " ++ registry com ++ nl
            ++ npmAuth com),
       com)
    /\ typeRestriction
         (snd (prepareConfigData isValidKey arrayEntries
                 (withTypeRestriction com DefaultRestriction) ""))
       = DefaultRestriction.
Proof.
  intros World isValidKey arrayEntries com. split; reflexivity.
Qed.

(** ** The scenario of the specification *)

(** C8, as stated, fails: the output for the scenario does not end with the
    line [@myscope = https://auth] followed by the three synthesized
    entries. *)
Lemma scenario_scoped_line_not_as_claimed :
  ~ (exists out : string,
        fst (prepareConfigData (allowList ["omit"; "only"; "registry"]) npmrcArrayEntries
               (scenarioArgs restoreOk) scenarioDump)
        = inl out
        /\ strings.HasSuffix out
             ("@myscope = https://auth" ++ nl ++ "json = true" ++ nl
              ++ "registry = https://auth" ++ nl ++ "//auth.line") = true).
Proof.
  intros (out & Hout & Hsuffix). vm_compute in Hout. injection Hout as <-.
  vm_compute in Hsuffix. discriminate.
Qed.

(** C8, amended. For the scenario's dump, with an allow-list that knows
    [omit], [only] and [registry] and not [@myscope], the restriction
    becomes [ProdOnly] and the output is: the array entries of [omit], the
    lines [only = production] and [registry = https://old] as they were,
    the scoped line rewritten from its left part as it stands in the dump,
    with the blank that precedes [=] kept, hence [@myscope  = https://auth],
    then [json = true], [registry = https://auth] and [//auth.line]. *)
Theorem scenario_output :
  forall (World : Type) (isValidKey : string -> bool)
         (arrayEntries : string -> string -> list string)
         (com : CommonArgs World),
    isValidKey "omit" = true ->
    isValidKey "only" = true ->
    isValidKey "registry" = true ->
    isValidKey "@myscope" = false ->
    jsonOutput com = true ->
    registry com = "https://auth" ->
    npmAuth com = "//auth.line" ->
    prepareConfigData isValidKey arrayEntries com scenarioDump
    = (inl (strings.Join (arrayEntries "omit" "[dev]") ""
            ++ "only = production" ++ nl
            ++ "registry = https://old" ++ nl
            ++ "@myscope  = https://auth" ++ nl
            ++ "json = true" ++ nl
            ++ "registry = https://auth" ++ nl
            ++ "//auth.line"),
       withTypeRestriction com ProdOnly).
Proof.
  intros World isValidKey arrayEntries com Homit Honly Hregistry Hscope Hjson Hreg Hauth.
  unfold prepareConfigData.
  change (bufio.NewScanner scenarioDump)
    with {| bufio.tokens := ["omit = [dev]"; "only = production";
                             "registry = https://old"; "@myscope = https://old2"];
            bufio.Err := None |}.
  cbn [bufio.tokens bufio.Err scanLoop].
  unfold scanOption at 1.
  change (strings.SplitN "omit = [dev]" "=" 2) with ["omit "; " [dev]"].
  cbn [nth List.length Nat.eqb negb].
  change (strings.TrimSpace "omit ") with "omit".
  change (strings.TrimSpace " [dev]") with "[dev]".
  rewrite Homit.
  change ("omit = [dev]" =? "") with false.
  change (strings.HasPrefix "[dev]" "[") with true.
  change (strings.HasSuffix "[dev]" "]") with true.
  cbn [negb andb]. unfold addArrayConfigs. rewrite app_nil_l.
  change (setTypeRestriction com "omit" "[dev]") with (withTypeRestriction com ProdOnly).
  unfold scanOption at 1.
  change (strings.SplitN "only = production" "=" 2) with ["only "; " production"].
  cbn [nth List.length Nat.eqb negb].
  change (strings.TrimSpace "only ") with "only".
  change (strings.TrimSpace " production") with "production".
  rewrite Honly.
  change ("only = production" =? "") with false.
  change (strings.HasPrefix "production" "[") with false.
  cbn [negb andb].
  change (setTypeRestriction (withTypeRestriction com ProdOnly) "only" "production")
    with (withTypeRestriction com ProdOnly).
  unfold scanOption at 1.
  change (strings.SplitN "registry = https://old" "=" 2) with ["registry "; " https://old"].
  cbn [nth List.length Nat.eqb negb].
  change (strings.TrimSpace "registry ") with "registry".
  change (strings.TrimSpace " https://old") with "https://old".
  rewrite Hregistry.
  change ("registry = https://old" =? "") with false.
  change (strings.HasPrefix "https://old" "[") with false.
  cbn [negb andb].
  change (setTypeRestriction (withTypeRestriction com ProdOnly) "registry" "https://old")
    with (withTypeRestriction com ProdOnly).
  unfold scanOption at 1.
  change (strings.SplitN "@myscope = https://old2" "=" 2) with ["@myscope "; " https://old2"].
  cbn [nth List.length Nat.eqb negb].
  change (strings.TrimSpace "@myscope ") with "@myscope".
  rewrite Hscope.
  change ("@myscope = https://old2" =? "") with false.
  change (strings.HasPrefix "@myscope " "@") with true.
  cbn [negb andb errorutils.CheckError].
  cbn [jsonOutput registry npmAuth withTypeRestriction].
  rewrite Hjson, Hreg, Hauth.
  f_equal. f_equal.
  rewrite !Join_app, !Join_cons. change (strings.Join [] "") with "".
  rewrite !append_nil_r, !append_assoc. reflexivity.
Qed.

Lemma scenario_output_witness :
  prepareConfigData (allowList ["omit"; "only"; "registry"]) npmrcArrayEntries
    (scenarioArgs restoreOk) scenarioDump
  = (inl ("omit[] = dev" ++ nl
          ++ "only = production" ++ nl
          ++ "registry = https://old" ++ nl
          ++ "@myscope  = https://auth" ++ nl
          ++ "json = true" ++ nl
          ++ "registry = https://auth" ++ nl
          ++ "//auth.line"),
     withTypeRestriction (scenarioArgs restoreOk) ProdOnly).
Proof.
  apply (scenario_output (allowList ["omit"; "only"; "registry"]) npmrcArrayEntries
           (scenarioArgs restoreOk));
    reflexivity.
Defined.

(** ** Lines that are dropped and lines that are rewritten *)

Section Lines.

Variable World : Type.
Variable isValidKey : string -> bool.
Variable arrayEntries : string -> string -> list string.
Implicit Types (com : CommonArgs World) (conf : list string) (line : string).

Local Abbreviation scanOption' := (scanOption isValidKey arrayEntries).
Local Abbreviation scanLoop' := (scanLoop isValidKey arrayEntries).
Local Abbreviation prepareConfigData' := (prepareConfigData isValidKey arrayEntries).

(** A line whose key is not allowed and whose left part does not begin
    with [@] changes nothing. *)
Lemma scanOption_dropped com conf line :
  isValidKey (strings.TrimSpace (leftPart line)) = false ->
  strings.HasPrefix (leftPart line) "@" = false ->
  scanOption' com conf line = (conf, com).
Proof.
  unfold leftPart, scanOption. intros Hkey Hat.
  destruct (negb (String.eqb line "")); [|reflexivity].
  cbv zeta. now rewrite Hkey, andb_false_r, Hat.
Qed.

(** A line whose left part begins with [@], and that is not an assignment
    to an allowed key, is rewritten from its left part. *)
Lemma scanOption_scoped com conf line :
  strings.HasPrefix (leftPart line) "@" = true ->
  isValidKey (strings.TrimSpace (leftPart line)) = false
  \/ strings.Contains line "=" = false ->
  scanOption' com conf line = ((conf ++ [leftPart line; " = "; registry com; nl])%list, com).
Proof.
  unfold leftPart, scanOption. intros Hat Hnot.
  destruct (String.eqb line "") eqn:Hempty.
  - apply String.eqb_eq in Hempty. subst line. discriminate Hat.
  - cbv zeta. cbn [negb]. rewrite Hat.
    destruct Hnot as [Hkey | Hsep].
    + now rewrite Hkey, andb_false_r.
    + now rewrite (SplitN_absent _ _ Hsep).
Qed.

(** A line without [=] never reaches the resolver. *)
Lemma scanOption_no_assignment com conf line :
  strings.Contains line "=" = false ->
  scanOption' com conf line =
  (if strings.HasPrefix line "@"
   then (conf ++ [line; " = "; registry com; nl])%list
   else conf, com).
Proof.
  intros Hsep. unfold scanOption.
  destruct (String.eqb line "") eqn:Hempty.
  - apply String.eqb_eq in Hempty. subst line. reflexivity.
  - cbv zeta. cbn [negb]. rewrite (SplitN_absent _ _ Hsep). cbn [List.length Nat.eqb andb nth].
    destruct (strings.HasPrefix line "@"); reflexivity.
Qed.

(** A line that changes nothing can be taken out of the stream. *)
Lemma scanLoop_skip com conf (l1 l2 : list string) line :
  (forall com' conf', scanOption' com' conf' line = (conf', com')) ->
  scanLoop' com conf (l1 ++ line :: l2) = scanLoop' com conf (l1 ++ l2).
Proof.
  intros Hskip. rewrite !scanLoop_app. cbn [scanLoop]. now rewrite Hskip.
Qed.

Lemma prepareConfigData_skip com (data data' : string) (l1 l2 : list string) line :
  (forall com' conf', scanOption' com' conf' line = (conf', com')) ->
  bufio.tokens (bufio.NewScanner data) = (l1 ++ line :: l2)%list ->
  bufio.tokens (bufio.NewScanner data') = (l1 ++ l2)%list ->
  bufio.Err (bufio.NewScanner data) = bufio.Err (bufio.NewScanner data') ->
  prepareConfigData' com data = prepareConfigData' com data'.
Proof.
  intros Hskip Htokens Htokens' Herr. unfold prepareConfigData.
  now rewrite Htokens, Htokens', Herr, scanLoop_skip.
Qed.

(** Where the rewritten line stands in the output. *)
Lemma prepareConfigData_scoped com (data : string) (l1 l2 : list string) line :
  (forall com' conf',
      scanOption' com' conf' line
      = ((conf' ++ [leftPart line; " = "; registry com'; nl])%list, com')) ->
  bufio.tokens (bufio.NewScanner data) = (l1 ++ line :: l2)%list ->
  bufio.Err (bufio.NewScanner data) = None ->
  exists after : string,
    fst (prepareConfigData' com data)
    = inl (strings.Join (fst (scanLoop' com [] l1)) ""
           ++ leftPart line ++ " = " ++ registry com ++ nl ++ after).
Proof.
  intros Hscoped Htokens Herr.
  rewrite (prepareConfigData_scanned _ _ _ _ Herr), Htokens. cbn [fst].
  rewrite scanLoop_app. cbn [scanLoop]. rewrite Hscoped, scanLoop_appends.
  rewrite scanLoop_state.
  destruct (fold_observe_fields isValidKey l1 com) as (_ & Hreg & _). rewrite Hreg.
  rewrite !Join_app, !Join_cons. change (strings.Join [] "") with "".
  rewrite !append_nil_r, !append_assoc.
  eexists. reflexivity.
Qed.

End Lines.

(** *** White space never takes a leading [@] away *)

Lemma HasPrefix_at (s : string) :
  strings.HasPrefix s "@" = true -> exists rest : string, s = String "@" rest.
Proof.
  unfold strings.HasPrefix. destruct s as [|c rest]; cbn [String.prefix]; [discriminate 1|].
  destruct (ascii_dec "@" c) as [Hc|Hc]; [|discriminate 1].
  intros _. exists rest. now rewrite Hc.
Qed.

Lemma string_of_list_ascii_app (l1 l2 : list ascii) :
  string_of_list_ascii (l1 ++ l2) = string_of_list_ascii l1 ++ string_of_list_ascii l2.
Proof. induction l1 as [|c l1 IH]; simpl; [reflexivity | now rewrite IH]. Qed.

Lemma list_ascii_of_string_app (s1 s2 : string) :
  list_ascii_of_string (s1 ++ s2) = (list_ascii_of_string s1 ++ list_ascii_of_string s2)%list.
Proof. induction s1 as [|c s1 IH]; simpl; [reflexivity | now rewrite IH]. Qed.

Lemma rev_at_first (rest : string) :
  strings.rev (String "@" rest) = strings.rev rest ++ "@".
Proof. unfold strings.rev. simpl. now rewrite string_of_list_ascii_app. Qed.

Lemma rev_at_last (s : string) :
  strings.rev (s ++ "@") = String "@" (strings.rev s).
Proof.
  unfold strings.rev. now rewrite list_ascii_of_string_app, rev_app_distr.
Qed.

(** A text without [@] that begins [s ++ "@"] lies within [s]. *)
Lemma drop_before_at (p s : string) :
  noAt p = true ->
  strings.HasPrefix (s ++ "@") p = true ->
  exists s' : string, strings.drop (String.length p) (s ++ "@") = s' ++ "@".
Proof.
  unfold strings.HasPrefix. revert s. induction p as [|c p IH]; intros s Hno Hprefix.
  - exists s. reflexivity.
  - cbn [noAt] in Hno. apply andb_true_iff in Hno as [Hc Hp].
    destruct s as [|d s]; cbn [String.prefix String.append] in Hprefix.
    + destruct (ascii_dec c "@") as [Heq|Hne]; [|discriminate Hprefix].
      subst c. discriminate Hc.
    + destruct (ascii_dec c d); [|discriminate Hprefix].
      cbn [String.length String.append strings.drop]. now apply IH.
Qed.

Lemma trimLeft_before_at (runes : list string) (fuel : nat) (s : string) :
  forallb noAt runes = true ->
  exists s' : string, strings.trimLeft runes fuel (s ++ "@") = s' ++ "@".
Proof.
  intros Hrunes. revert s. induction fuel as [|fuel IH]; intros s; [now exists s|].
  cbn [strings.trimLeft]. unfold strings.afterSpace.
  destruct (find (strings.HasPrefix (s ++ "@")) runes) as [rune|] eqn:Hfind; [|now exists s].
  apply find_some in Hfind as [Hin Hprefix].
  assert (Hno : noAt rune = true) by now apply (proj1 (forallb_forall _ _) Hrunes).
  destruct (drop_before_at _ _ Hno Hprefix) as (s' & ->). apply IH.
Qed.

Lemma TrimLeftSpace_at (rest : string) :
  strings.TrimLeftSpace (String "@" rest) = String "@" rest.
Proof. reflexivity. Qed.

Lemma TrimSpace_at (s : string) :
  strings.HasPrefix s "@" = true -> strings.HasPrefix (strings.TrimSpace s) "@" = true.
Proof.
  intros Hat. destruct (HasPrefix_at _ Hat) as (rest & ->).
  unfold strings.TrimSpace. rewrite TrimLeftSpace_at. unfold strings.TrimRightSpace.
  rewrite rev_at_first.
  destruct (trimLeft_before_at (List.map strings.rev strings.spaceRunes)
              (String.length (String "@" rest)) (strings.rev rest) eq_refl) as (s' & ->).
  rewrite rev_at_last. apply (HasPrefix_append "@" (strings.rev s')).
Qed.

(** C5. With an allow-list that refuses every key beginning with [@], as
    the filter of the package does: a line whose trimmed key the allow-list
    refuses and whose left part does not begin with [@] adds nothing to
    the configuration gathered so far and leaves the receiver as it is,
    and the result of [prepareConfigData] is the one for the dump without
    that line; and every line whose left part begins with [@] is emitted
    as that left part followed by [ = ], the registry and a line feed,
    right after what the earlier lines gave. *)
Theorem unrecognized_dropped_scoped_rewritten :
  forall (World : Type) (isValidKey : string -> bool)
         (arrayEntries : string -> string -> list string)
         (com : CommonArgs World) (line : string),
    (forall key : string, strings.HasPrefix key "@" = true -> isValidKey key = false) ->
    (isValidKey (strings.TrimSpace (leftPart line)) = false ->
     strings.HasPrefix (leftPart line) "@" = false ->
     (forall conf : list string,
         scanOption isValidKey arrayEntries com conf line = (conf, com))
     /\ (forall (data data' : string) (l1 l2 : list string),
            bufio.tokens (bufio.NewScanner data) = (l1 ++ line :: l2)%list ->
            bufio.tokens (bufio.NewScanner data') = (l1 ++ l2)%list ->
            bufio.Err (bufio.NewScanner data) = bufio.Err (bufio.NewScanner data') ->
            prepareConfigData isValidKey arrayEntries com data
            = prepareConfigData isValidKey arrayEntries com data'))
    /\ (strings.HasPrefix (leftPart line) "@" = true ->
        (forall conf : list string,
            scanOption isValidKey arrayEntries com conf line
            = ((conf ++ [leftPart line; " = "; registry com; nl])%list, com))
        /\ (forall (data : string) (l1 l2 : list string),
               bufio.tokens (bufio.NewScanner data) = (l1 ++ line :: l2)%list ->
               bufio.Err (bufio.NewScanner data) = None ->
               exists after : string,
                 fst (prepareConfigData isValidKey arrayEntries com data)
                 = inl (strings.Join (fst (scanLoop isValidKey arrayEntries com [] l1)) ""
                        ++ leftPart line ++ " = " ++ registry com ++ nl ++ after))).
Proof.
  intros World isValidKey arrayEntries com line Hscoped. split.
  - intros Hkey Hat. split.
    + intros conf. now apply scanOption_dropped.
    + intros data data' l1 l2. apply prepareConfigData_skip.
      intros com' conf'. now apply scanOption_dropped.
  - intros Hat.
    assert (Hkey : isValidKey (strings.TrimSpace (leftPart line)) = false)
      by now apply Hscoped, TrimSpace_at.
    split.
    + intros conf. apply scanOption_scoped; [exact Hat | now left].
    + intros data l1 l2. apply prepareConfigData_scoped.
      intros com' conf'. apply scanOption_scoped; [exact Hat | now left].
Qed.

Lemma unrecognized_dropped_scoped_rewritten_witness :
  prepareConfigData (scopedRefused ["omit"; "only"; "@myscope"]) npmrcArrayEntries
    (scenarioArgs restoreOk)
    ("omit = dev" ++ nl ++ "cache = /tmp" ++ nl ++ "only = prod")
  = prepareConfigData (scopedRefused ["omit"; "only"; "@myscope"]) npmrcArrayEntries
      (scenarioArgs restoreOk)
      ("omit = dev" ++ nl ++ "only = prod")
  /\ exists after : string,
      fst (prepareConfigData (scopedRefused ["omit"; "only"; "@myscope"]) npmrcArrayEntries
             (scenarioArgs restoreOk)
             ("omit = dev" ++ nl ++ "@myscope = https://old2" ++ nl ++ "only = prod"))
      = inl ("omit = dev" ++ nl ++ "@myscope " ++ " = " ++ "https://auth" ++ nl ++ after).
Proof.
  assert (Hscoped : forall key : string,
             strings.HasPrefix key "@" = true ->
             scopedRefused ["omit"; "only"; "@myscope"] key = false).
  { intros key Hat. unfold scopedRefused. now rewrite Hat. }
  split.
  - destruct (unrecognized_dropped_scoped_rewritten
                (scopedRefused ["omit"; "only"; "@myscope"])
                npmrcArrayEntries (scenarioArgs restoreOk) "cache = /tmp" Hscoped)
      as [Hdrop _].
    destruct (Hdrop eq_refl eq_refl) as [_ Hsame].
    apply (Hsame _ _ ["omit = dev"] ["only = prod"]); reflexivity.
  - destruct (unrecognized_dropped_scoped_rewritten
                (scopedRefused ["omit"; "only"; "@myscope"])
                npmrcArrayEntries (scenarioArgs restoreOk) "@myscope = https://old2" Hscoped)
      as [_ Hrewritten].
    destruct (Hrewritten eq_refl) as [_ Hout].
    apply (Hout _ ["omit = dev"] ["only = prod"]); reflexivity.
Defined.

(** C6, as stated, fails for lines that begin with [@]: such a line, even
    without any [=], adds a scoped registry line to the output. *)
Lemma scoped_line_without_assignment_is_emitted :
  "@myscope" <> ""
  /\ strings.Contains "@myscope" "=" = false
  /\ prepareConfigData (allowList ["omit"; "only"]) npmrcArrayEntries
       (scenarioArgs restoreOk) "@myscope"
     = (inl ("@myscope = https://auth" ++ nl
             ++ "json = true" ++ nl ++ "registry = https://auth" ++ nl ++ "//auth.line"),
        scenarioArgs restoreOk)
  /\ prepareConfigData (allowList ["omit"; "only"]) npmrcArrayEntries
       (scenarioArgs restoreOk) "@myscope"
     <> prepareConfigData (allowList ["omit"; "only"]) npmrcArrayEntries
          (scenarioArgs restoreOk) "".
Proof.
  split; [discriminate|]. split; [reflexivity|]. split; [reflexivity|].
  intros Heq. vm_compute in Heq. discriminate Heq.
Qed.

(** C6, amended. A scanned line without any [=] never changes the receiver,
    so the restriction stays as it was, and its processing has no error
    path. When it does not begin with [@] it adds nothing to the
    configuration either, and the result of [prepareConfigData] is the one
    for the dump without that line. When it begins with [@] it is emitted
    as the line followed by [ = ], the registry and a line feed. *)
Theorem line_without_assignment :
  forall (World : Type) (isValidKey : string -> bool)
         (arrayEntries : string -> string -> list string)
         (com : CommonArgs World) (line : string),
    strings.Contains line "=" = false ->
    (forall conf : list string,
        snd (scanOption isValidKey arrayEntries com conf line) = com)
    /\ (strings.HasPrefix line "@" = false ->
        (forall conf : list string,
            scanOption isValidKey arrayEntries com conf line = (conf, com))
        /\ (forall (data data' : string) (l1 l2 : list string),
               bufio.tokens (bufio.NewScanner data) = (l1 ++ line :: l2)%list ->
               bufio.tokens (bufio.NewScanner data') = (l1 ++ l2)%list ->
               bufio.Err (bufio.NewScanner data) = bufio.Err (bufio.NewScanner data') ->
               prepareConfigData isValidKey arrayEntries com data
               = prepareConfigData isValidKey arrayEntries com data'))
    /\ (strings.HasPrefix line "@" = true ->
        forall conf : list string,
          scanOption isValidKey arrayEntries com conf line
          = ((conf ++ [line; " = "; registry com; nl])%list, com)).
Proof.
  intros World isValidKey arrayEntries com line Hsep. split; [|split].
  - intros conf. now rewrite scanOption_no_assignment.
  - intros Hat. split.
    + intros conf. now rewrite scanOption_no_assignment, Hat.
    + intros data data' l1 l2. apply prepareConfigData_skip.
      intros com' conf'. now rewrite scanOption_no_assignment, Hat.
  - intros Hat conf. now rewrite scanOption_no_assignment, Hat.
Qed.

Lemma line_without_assignment_witness :
  prepareConfigData (allowList ["omit"; "only"]) npmrcArrayEntries (scenarioArgs restoreOk)
    ("omit = dev" ++ nl ++ "; cli configs" ++ nl ++ "only = prod")
  = prepareConfigData (allowList ["omit"; "only"]) npmrcArrayEntries (scenarioArgs restoreOk)
      ("omit = dev" ++ nl ++ "only = prod")
  /\ snd (scanOption (allowList ["omit"; "only"]) npmrcArrayEntries
            (scenarioArgs restoreOk) [] "@myscope")
     = scenarioArgs restoreOk.
Proof.
  split.
  - destruct (line_without_assignment (allowList ["omit"; "only"]) npmrcArrayEntries
                (scenarioArgs restoreOk) "; cli configs" eq_refl) as (_ & Hplain & _).
    destruct (Hplain eq_refl) as [_ Hsame].
    apply (Hsame _ _ ["omit = dev"] ["only = prod"]); reflexivity.
  - destruct (line_without_assignment (allowList ["omit"; "only"]) npmrcArrayEntries
                (scenarioArgs restoreOk) "@myscope" eq_refl) as (Hstate & _).
    apply Hstate.
Defined.

(** * Further properties of the code *)

(** ** The resolver in closed form *)

Section Closed.

Variable World : Type.
Variable isValidKey : string -> bool.
Implicit Types (com : CommonArgs World) (line : string) (lines : list string).

Local Abbreviation observe' := (@observe World isValidKey).

(** One line moves the restriction as the three rules say. *)
Lemma observe_step com line :
  typeRestriction (observe' com line) =
  match observedOmit isValidKey line with
  | Some value => omitPolicy value
  | None =>
      if TypeRestriction_eqb (typeRestriction com) DefaultRestriction then
        match legacyLine isValidKey line with
        | Some t => t
        | None => DefaultRestriction
        end
      else typeRestriction com
  end.
Proof.
  unfold observe, observedOmit, legacyLine.
  destruct (observedPair isValidKey line) as [[key value]|].
  - destruct (String.eqb key "omit") eqn:Hkey.
    + apply String.eqb_eq in Hkey. subst key. apply setTypeRestriction_omit.
    + apply String.eqb_neq in Hkey.
      destruct (TypeRestriction_eqb (typeRestriction com) DefaultRestriction) eqn:Hstate.
      * apply TypeRestriction_eqb_eq in Hstate. now apply setTypeRestriction_legacy.
      * apply TypeRestriction_eqb_neq in Hstate. now rewrite setTypeRestriction_kept.
  - destruct (TypeRestriction_eqb (typeRestriction com) DefaultRestriction) eqn:Hstate;
      [now apply TypeRestriction_eqb_eq in Hstate | reflexivity].
Qed.

Lemma fold_observe_resolved lines com :
  typeRestriction (fold_left observe' lines com)
  = resolved isValidKey (typeRestriction com) lines.
Proof.
  revert com. induction lines as [|line lines IH]; intros com.
  - unfold resolved. simpl.
    destruct (TypeRestriction_eqb (typeRestriction com) DefaultRestriction) eqn:Hstate;
      [now apply TypeRestriction_eqb_eq in Hstate | reflexivity].
  - cbn [fold_left]. rewrite IH, observe_step. unfold resolved. cbn [lastOmit firstLegacy].
    destruct (lastOmit isValidKey lines) as [later|]; [reflexivity|].
    destruct (observedOmit isValidKey line) as [value|].
    + pose proof (omitPolicy_set value) as Hset.
      apply TypeRestriction_eqb_neq in Hset. now rewrite Hset.
    + destruct (TypeRestriction_eqb (typeRestriction com) DefaultRestriction) eqn:Hstate.
      * destruct (legacyLine isValidKey line) as [t|] eqn:Hline; [|reflexivity].
        pose proof (legacyLine_set _ _ Hline) as Hset.
        apply TypeRestriction_eqb_neq in Hset. now rewrite Hset.
      * now rewrite Hstate.
Qed.

End Closed.

(** X1. The restriction [prepareConfigData] leaves in the receiver is given
    in closed form by the scanned lines and the restriction before: the
    policy of the last observed [omit] pair if there is one; else the
    restriction before when it was set; else the policy of the first
    observed legacy pair that has one; else [DefaultRestriction]. *)
Theorem prepareConfigData_resolved :
  forall (World : Type) (isValidKey : string -> bool)
         (arrayEntries : string -> string -> list string)
         (com : CommonArgs World) (data : string),
    typeRestriction (snd (prepareConfigData isValidKey arrayEntries com data))
    = resolved isValidKey (typeRestriction com) (bufio.tokens (bufio.NewScanner data)).
Proof.
  intros. rewrite prepareConfigData_state. apply fold_observe_resolved.
Qed.

(** ** What [prepareConfigData] keeps *)

Section Frame.

Variable World : Type.
Variable isValidKey : string -> bool.
Variable arrayEntries : string -> string -> list string.
Implicit Types (com : CommonArgs World) (line : string) (lines : list string).

Local Abbreviation observe' := (@observe World isValidKey).
Local Abbreviation prepareConfigData' := (prepareConfigData isValidKey arrayEntries).

Lemma withTypeRestriction_same com : withTypeRestriction com (typeRestriction com) = com.
Proof. now destruct com. Qed.

Lemma setTypeRestriction_frame com (key value : string) :
  setTypeRestriction com key value
  = withTypeRestriction com (typeRestriction (setTypeRestriction com key value)).
Proof.
  unfold setTypeRestriction.
  repeat match goal with
         | |- context [if ?b then _ else _] => destruct b
         end; first [reflexivity | symmetry; apply withTypeRestriction_same].
Qed.

Lemma observe_frame com line :
  observe' com line = withTypeRestriction com (typeRestriction (observe' com line)).
Proof.
  unfold observe. destruct (observedPair isValidKey line) as [[key value]|].
  - apply setTypeRestriction_frame.
  - symmetry. apply withTypeRestriction_same.
Qed.

Lemma fold_observe_frame lines com :
  fold_left observe' lines com
  = withTypeRestriction com (typeRestriction (fold_left observe' lines com)).
Proof.
  revert com. induction lines as [|line lines IH]; intros com; cbn [fold_left].
  - symmetry. apply withTypeRestriction_same.
  - rewrite IH at 1. rewrite (observe_frame com line) at 1. reflexivity.
Qed.

(** What [prepareConfigData] returns when the scanner reports an error. *)
Lemma prepareConfigData_failed com data (err : error) :
  bufio.Err (bufio.NewScanner data) = Some err ->
  prepareConfigData' com data
  = (inr err, fold_left observe' (bufio.tokens (bufio.NewScanner data)) com).
Proof.
  intros Herr. unfold prepareConfigData.
  pose proof (scanLoop_state isValidKey arrayEntries com []
                (bufio.tokens (bufio.NewScanner data))) as Hs.
  destruct (scanLoop isValidKey arrayEntries com [] (bufio.tokens (bufio.NewScanner data)))
    as [conf com'].
  simpl in Hs. subst com'. now rewrite Herr.
Qed.

Lemma prepareConfigData_output com (t : TypeRestriction) data :
  fst (prepareConfigData' (withTypeRestriction com t) data) = fst (prepareConfigData' com data).
Proof.
  destruct (bufio.Err (bufio.NewScanner data)) as [err|] eqn:Herr.
  - now rewrite !(prepareConfigData_failed _ _ Herr).
  - rewrite !(prepareConfigData_scanned _ _ _ _ Herr). cbn [fst].
    now rewrite (scanLoop_output isValidKey arrayEntries (withTypeRestriction com t) com).
Qed.

Lemma firstLegacy_set lines (t : TypeRestriction) :
  firstLegacy isValidKey lines = Some t -> t <> DefaultRestriction.
Proof.
  induction lines as [|line lines IH]; [discriminate|]. cbn [firstLegacy].
  destruct (legacyLine isValidKey line) as [t'|] eqn:Hline; [|exact IH].
  intros H. inversion H. subst t'. now apply legacyLine_set with (line := line) (isValidKey := isValidKey).
Qed.

Lemma resolved_set (before : TypeRestriction) lines :
  before <> DefaultRestriction -> resolved isValidKey before lines <> DefaultRestriction.
Proof.
  intros Hset. unfold resolved.
  destruct (lastOmit isValidKey lines) as [value|]; [apply omitPolicy_set|].
  apply TypeRestriction_eqb_neq in Hset. rewrite Hset. now apply TypeRestriction_eqb_neq.
Qed.

Lemma resolved_again (before : TypeRestriction) lines :
  resolved isValidKey (resolved isValidKey before lines) lines
  = resolved isValidKey before lines.
Proof.
  unfold resolved.
  destruct (lastOmit isValidKey lines) as [value|]; [reflexivity|].
  destruct (TypeRestriction_eqb before DefaultRestriction) eqn:Hbefore.
  - destruct (firstLegacy isValidKey lines) as [t|] eqn:Hfirst; [|reflexivity].
    pose proof (firstLegacy_set _ Hfirst) as Hset.
    apply TypeRestriction_eqb_neq in Hset. now rewrite Hset.
  - now rewrite Hbefore.
Qed.

Lemma fold_observe_again lines com :
  fold_left observe' lines (fold_left observe' lines com) = fold_left observe' lines com.
Proof.
  pose proof (fold_observe_frame lines com) as Hf.
  rewrite fold_observe_resolved in Hf.
  pose proof (fold_observe_frame lines (fold_left observe' lines com)) as Hg.
  rewrite !fold_observe_resolved, resolved_again in Hg.
  rewrite Hg, Hf. reflexivity.
Qed.

Lemma prepareConfigData_again com data :
  prepareConfigData' (snd (prepareConfigData' com data)) data = prepareConfigData' com data.
Proof.
  rewrite prepareConfigData_state.
  destruct (fold_observe_fields isValidKey (bufio.tokens (bufio.NewScanner data)) com)
    as (Hj & Hr & Ha).
  destruct (bufio.Err (bufio.NewScanner data)) as [err|] eqn:Herr.
  - rewrite !(prepareConfigData_failed _ _ Herr). now rewrite fold_observe_again.
  - rewrite !(prepareConfigData_scanned _ _ _ _ Herr).
    rewrite fold_observe_again, Hj, Hr, Ha.
    now rewrite (scanLoop_output isValidKey arrayEntries _ com _ _ Hr).
Qed.

End Frame.

(** X2. [prepareConfigData] changes nothing of the receiver but the
    restriction: the JSON flag, the registry, the credential, the working
    directory and the restore function are those it was called with,
    whether it returns bytes or an error. *)
Theorem prepareConfigData_changes_restriction_only :
  forall (World : Type) (isValidKey : string -> bool)
         (arrayEntries : string -> string -> list string)
         (com : CommonArgs World) (data : string),
    snd (prepareConfigData isValidKey arrayEntries com data)
    = withTypeRestriction com
        (typeRestriction (snd (prepareConfigData isValidKey arrayEntries com data))).
Proof.
  intros. rewrite prepareConfigData_state. apply fold_observe_frame.
Qed.

(** X3. The bytes or the error [prepareConfigData] returns do not depend on
    the restriction held by the receiver: the text is derived from the
    dump, the JSON flag, the registry and the credential alone. *)
Theorem prepareConfigData_output_ignores_restriction :
  forall (World : Type) (isValidKey : string -> bool)
         (arrayEntries : string -> string -> list string)
         (com : CommonArgs World) (t : TypeRestriction) (data : string),
    fst (prepareConfigData isValidKey arrayEntries (withTypeRestriction com t) data)
    = fst (prepareConfigData isValidKey arrayEntries com data).
Proof.
  intros. apply prepareConfigData_output.
Qed.

(** X4. Running [prepareConfigData] again on the same dump, with the
    receiver the first run left, returns the same bytes or error and leaves
    the receiver as the first run did. *)
Theorem prepareConfigData_twice :
  forall (World : Type) (isValidKey : string -> bool)
         (arrayEntries : string -> string -> list string)
         (com : CommonArgs World) (data : string),
    prepareConfigData isValidKey arrayEntries
      (snd (prepareConfigData isValidKey arrayEntries com data)) data
    = prepareConfigData isValidKey arrayEntries com data.
Proof.
  intros. apply prepareConfigData_again.
Qed.

(** ** Where a restriction can come from *)

Section Provenance.

Variable isValidKey : string -> bool.
Implicit Types (line : string) (lines : list string).

Lemma observedOmit_pair line (value : string) :
  observedOmit isValidKey line = Some value ->
  observedPair isValidKey line = Some ("omit", value).
Proof.
  unfold observedOmit. destruct (observedPair isValidKey line) as [[key v]|]; [|discriminate].
  destruct (String.eqb key "omit") eqn:Hkey; [|discriminate].
  apply String.eqb_eq in Hkey. intros H. inversion H. now subst.
Qed.

Lemma lastOmit_In lines (value : string) :
  lastOmit isValidKey lines = Some value ->
  exists line, In line lines /\ observedPair isValidKey line = Some ("omit", value).
Proof.
  induction lines as [|line lines IH]; [discriminate|]. cbn [lastOmit].
  destruct (lastOmit isValidKey lines) as [later|].
  - intros H. inversion H. subst later. destruct (IH eq_refl) as (l & Hin & Hl).
    exists l. split; [now right | exact Hl].
  - intros H. exists line. split; [now left | now apply observedOmit_pair].
Qed.

Lemma legacyPolicy_only (key value : string) :
  legacyPolicy key value = Some DevOnly ->
  key = "only" /\ strings.Contains value "dev" = true /\ strings.Contains value "prod" = false.
Proof.
  unfold legacyPolicy. destruct (String.eqb key "only") eqn:Hkey.
  - apply String.eqb_eq in Hkey.
    destruct (strings.Contains value "prod"); [discriminate|].
    destruct (strings.Contains value "dev"); [auto | discriminate].
  - destruct (String.eqb key "production"); [|discriminate].
    destruct (strings.Contains value "true"); discriminate.
Qed.

Lemma legacyPolicy_not_All (key value : string) : legacyPolicy key value <> Some All.
Proof.
  unfold legacyPolicy.
  repeat match goal with
         | |- context [if ?b then _ else _] => destruct b
         end; discriminate.
Qed.

Lemma firstLegacy_In lines (t : TypeRestriction) :
  firstLegacy isValidKey lines = Some t ->
  exists line key value,
    In line lines /\ observedPair isValidKey line = Some (key, value)
    /\ legacyPolicy key value = Some t.
Proof.
  induction lines as [|line lines IH]; [discriminate|]. cbn [firstLegacy].
  destruct (legacyLine isValidKey line) as [t'|] eqn:Hline.
  - intros H. inversion H. subst t'. unfold legacyLine in Hline.
    destruct (observedPair isValidKey line) as [[key value]|] eqn:Hpair; [|discriminate].
    exists line, key, value. split; [now left|]. split; [exact Hpair | exact Hline].
  - intros H. destruct (IH H) as (l & key & value & Hin & Hl).
    exists l, key, value. split; [now right | exact Hl].
Qed.

Lemma resolved_All (before : TypeRestriction) lines :
  resolved isValidKey before lines = All ->
  before = All
  \/ exists line value,
      In line lines /\ observedPair isValidKey line = Some ("omit", value)
      /\ strings.Contains value "dev" = false.
Proof.
  unfold resolved. destruct (lastOmit isValidKey lines) as [value|] eqn:Hlast.
  - intros Hpolicy. right. destruct (lastOmit_In _ Hlast) as (line & Hin & Hline).
    exists line, value. split; [exact Hin|]. split; [exact Hline|].
    unfold omitPolicy in Hpolicy. destruct (strings.Contains value "dev"); [discriminate | reflexivity].
  - destruct (TypeRestriction_eqb before DefaultRestriction); [|now left].
    destruct (firstLegacy isValidKey lines) as [t|] eqn:Hfirst; [|discriminate].
    intros Ht. subst t. destruct (firstLegacy_In _ Hfirst) as (l & key & value & _ & _ & Hp).
    now destruct (legacyPolicy_not_All key value).
Qed.

Lemma resolved_DevOnly (before : TypeRestriction) lines :
  resolved isValidKey before lines = DevOnly ->
  before = DevOnly
  \/ exists line value,
      In line lines /\ observedPair isValidKey line = Some ("only", value)
      /\ strings.Contains value "dev" = true /\ strings.Contains value "prod" = false.
Proof.
  unfold resolved. destruct (lastOmit isValidKey lines) as [value|] eqn:Hlast.
  - unfold omitPolicy. destruct (strings.Contains value "dev"); discriminate.
  - destruct (TypeRestriction_eqb before DefaultRestriction); [|now left].
    destruct (firstLegacy isValidKey lines) as [t|] eqn:Hfirst; [|discriminate].
    intros Ht. subst t. right.
    destruct (firstLegacy_In _ Hfirst) as (l & key & value & Hin & Hpair & Hp).
    destruct (legacyPolicy_only _ _ Hp) as (Hkey & Hdev & Hprod). subst key.
    exists l, value. auto.
Qed.

End Provenance.

(** X5. A restriction that is set when [prepareConfigData] is called is
    still set when it returns: no dump brings the receiver back to
    [DefaultRestriction]. *)
Theorem prepareConfigData_never_unsets :
  forall (World : Type) (isValidKey : string -> bool)
         (arrayEntries : string -> string -> list string)
         (com : CommonArgs World) (data : string),
    typeRestriction com <> DefaultRestriction ->
    typeRestriction (snd (prepareConfigData isValidKey arrayEntries com data))
    <> DefaultRestriction.
Proof.
  intros World isValidKey arrayEntries com data Hset.
  rewrite prepareConfigData_state, fold_observe_resolved. now apply resolved_set.
Qed.

Lemma prepareConfigData_never_unsets_witness :
  typeRestriction
    (snd (prepareConfigData (allowList ["omit"; "only"; "production"]) npmrcArrayEntries
            (withTypeRestriction (scenarioArgs restoreOk) DevOnly)
            ("production = true" ++ nl ++ "omit = []")))
  <> DefaultRestriction.
Proof.
  apply (prepareConfigData_never_unsets (allowList ["omit"; "only"; "production"])
           npmrcArrayEntries (withTypeRestriction (scenarioArgs restoreOk) DevOnly)
           ("production = true" ++ nl ++ "omit = []")).
  discriminate.
Defined.

(** X6. Where the restriction left by [prepareConfigData] comes from.
    [All] is either what the receiver held already or the policy of an
    observed [omit] pair whose value does not contain "dev"; [DevOnly] is
    either what the receiver held already or the policy of an observed
    [only] pair whose value contains "dev" and not "prod". Legacy keys
    never give [All], and [omit] never gives [DevOnly]. *)
Theorem prepareConfigData_restriction_origin :
  forall (World : Type) (isValidKey : string -> bool)
         (arrayEntries : string -> string -> list string)
         (com : CommonArgs World) (data : string),
    (typeRestriction (snd (prepareConfigData isValidKey arrayEntries com data)) = All ->
     typeRestriction com = All
     \/ exists line value : string,
         In line (bufio.tokens (bufio.NewScanner data))
         /\ observedPair isValidKey line = Some ("omit", value)
         /\ strings.Contains value "dev" = false)
    /\ (typeRestriction (snd (prepareConfigData isValidKey arrayEntries com data)) = DevOnly ->
        typeRestriction com = DevOnly
        \/ exists line value : string,
            In line (bufio.tokens (bufio.NewScanner data))
            /\ observedPair isValidKey line = Some ("only", value)
            /\ strings.Contains value "dev" = true
            /\ strings.Contains value "prod" = false).
Proof.
  intros World isValidKey arrayEntries com data.
  rewrite prepareConfigData_state, fold_observe_resolved. split.
  - apply resolved_All.
  - apply resolved_DevOnly.
Qed.

Lemma prepareConfigData_restriction_origin_witness :
  (exists line value : string,
      In line ["cache = /tmp"; "omit = [optional]"]
      /\ observedPair (allowList ["omit"; "only"; "cache"]) line = Some ("omit", value)
      /\ strings.Contains value "dev" = false)
  /\ (exists line value : string,
         In line ["only = development"; "production = true"]
         /\ observedPair (allowList ["only"; "production"]) line = Some ("only", value)
         /\ strings.Contains value "dev" = true
         /\ strings.Contains value "prod" = false).
Proof.
  split.
  - destruct (prepareConfigData_restriction_origin (allowList ["omit"; "only"; "cache"])
                npmrcArrayEntries (scenarioArgs restoreOk)
                ("cache = /tmp" ++ nl ++ "omit = [optional]")) as [Hall _].
    destruct (Hall eq_refl) as [Hheld | Hline]; [discriminate Hheld | exact Hline].
  - destruct (prepareConfigData_restriction_origin (allowList ["only"; "production"])
                npmrcArrayEntries (scenarioArgs restoreOk)
                ("only = development" ++ nl ++ "production = true")) as [_ Hdev].
    destruct (Hdev eq_refl) as [Hheld | Hline]; [discriminate Hheld | exact Hline].
Defined.

(** ** The error of the scanner *)

Lemma scan_Err (segs : list string) :
  bufio.Err (bufio.scan segs)
  = if existsb bufio.tooLong segs then Some bufio.ErrTooLong else None.
Proof.
  induction segs as [|seg rest IH]; [reflexivity|].
  cbn [bufio.scan existsb]. destruct rest as [|seg' rest'].
  - destruct (String.eqb seg "") eqn:Hempty.
    + apply String.eqb_eq in Hempty. subst seg. reflexivity.
    + destruct (bufio.tooLong seg); reflexivity.
  - destruct (bufio.tooLong seg); [reflexivity|]. exact IH.
Qed.

(** The limit of the scanner lies between 65535 and 65536 bytes. *)
Example scanner_limit :
  bufio.Err (bufio.NewScanner (longLine 65535)) = None
  /\ bufio.Err (bufio.NewScanner (longLine 65536 ++ nl ++ "omit = dev"))
     = Some bufio.ErrTooLong.
Proof. split; vm_compute; reflexivity. Qed.

(** X7. [prepareConfigData] fails exactly when some line of the dump, its
    carriage return included, has 65536 bytes or more: the error is that of
    the scanner, [bufio.ErrTooLong], and no bytes are returned. For every
    other dump it returns the text derived from the lines followed by the
    three synthesized entries. *)
Theorem prepareConfigData_fails_on_long_line_only :
  forall (World : Type) (isValidKey : string -> bool)
         (arrayEntries : string -> string -> list string)
         (com : CommonArgs World) (data : string),
    fst (prepareConfigData isValidKey arrayEntries com data)
    = if existsb bufio.tooLong (bufio.segments data)
      then inr bufio.ErrTooLong
      else inl (strings.Join
                  (fst (scanLoop isValidKey arrayEntries com []
                          (bufio.tokens (bufio.NewScanner data)))) ""
                ++ "json = " ++ strconv.FormatBool (jsonOutput com) ++ nl
                ++ "registry = " ++ registry com ++ nl
                ++ npmAuth com).
Proof.
  intros World isValidKey arrayEntries com data.
  pose proof (scan_Err (bufio.segments data)) as Herr.
  fold (bufio.NewScanner data) in Herr.
  destruct (existsb bufio.tooLong (bufio.segments data)).
  - now rewrite (prepareConfigData_failed _ _ _ _ Herr).
  - now rewrite (prepareConfigData_scanned _ _ _ _ Herr).
Qed.

(** ** The order of the output *)

(** X8. The loop of [prepareConfigData] keeps the order of the lines and
    treats each part of the stream on its own: what it gathers from two
    runs of lines, one after the other, is what it gathers from the first
    followed by what it gathers from the second alone, whatever the
    restriction was in between. *)
Theorem scanLoop_in_order :
  forall (World : Type) (isValidKey : string -> bool)
         (arrayEntries : string -> string -> list string)
         (com : CommonArgs World) (conf l1 l2 : list string),
    fst (scanLoop isValidKey arrayEntries com conf (l1 ++ l2))
    = (fst (scanLoop isValidKey arrayEntries com conf l1)
       ++ fst (scanLoop isValidKey arrayEntries com [] l2))%list.
Proof.
  intros World isValidKey arrayEntries com conf l1 l2.
  rewrite scanLoop_app, scanLoop_appends. f_equal.
  apply scanLoop_output. rewrite scanLoop_state.
  now destruct (fold_observe_fields isValidKey l1 com) as (_ & Hreg & _).
Qed.

(** ** Keys the resolver does not know *)

Lemma setTypeRestriction_other (World : Type) (com : CommonArgs World) (key value : string) :
  key <> "omit" -> key <> "only" -> key <> "production" ->
  setTypeRestriction com key value = com.
Proof.
  intros Homit Honly Hproduction. unfold setTypeRestriction.
  apply String.eqb_neq in Homit, Honly, Hproduction.
  rewrite Homit, Honly, Hproduction.
  destruct (TypeRestriction_eqb (typeRestriction com) DefaultRestriction); reflexivity.
Qed.

(** X9. A dump in which no observed pair has the key [omit], [only] or
    [production] leaves the receiver exactly as it was, whatever its other
    keys and values are. *)
Theorem prepareConfigData_unrelated_keys :
  forall (World : Type) (isValidKey : string -> bool)
         (arrayEntries : string -> string -> list string)
         (com : CommonArgs World) (data : string),
    (forall line key value : string,
        In line (bufio.tokens (bufio.NewScanner data)) ->
        observedPair isValidKey line = Some (key, value) ->
        key <> "omit" /\ key <> "only" /\ key <> "production") ->
    snd (prepareConfigData isValidKey arrayEntries com data) = com.
Proof.
  intros World isValidKey arrayEntries com data.
  rewrite prepareConfigData_state.
  induction (bufio.tokens (bufio.NewScanner data)) as [|line lines IH]; intros Hkeys;
    [reflexivity|].
  cbn [fold_left].
  assert (Hline : observe isValidKey com line = com).
  { unfold observe. destruct (observedPair isValidKey line) as [[key value]|] eqn:Hpair;
      [|reflexivity].
    destruct (Hkeys line key value (or_introl eq_refl) Hpair) as (H1 & H2 & H3).
    now apply setTypeRestriction_other. }
  rewrite Hline. apply IH. intros l key value Hin. apply Hkeys. now right.
Qed.

Lemma prepareConfigData_unrelated_keys_witness :
  snd (prepareConfigData (allowList ["cache"; "prefix"; "only"]) npmrcArrayEntries
         (scenarioArgs restoreOk)
         ("cache = /tmp" ++ nl ++ "prefix = /usr" ++ nl ++ "production = true"))
  = scenarioArgs restoreOk.
Proof.
  apply (prepareConfigData_unrelated_keys (allowList ["cache"; "prefix"; "only"])
           npmrcArrayEntries (scenarioArgs restoreOk)
           ("cache = /tmp" ++ nl ++ "prefix = /usr" ++ nl ++ "production = true")).
  intros line key value Hin Hpair.
  destruct Hin as [<- | [<- | [<- | []]]]; vm_compute in Hpair;
    try discriminate Hpair; inversion Hpair; subst key;
    repeat split; discriminate.
Defined.

(** ** [createTempNpmrc] and the files *)

Section Files.

Variable World : Type.
Variable isValidKey : string -> bool.
Variable arrayEntries : string -> string -> list string.
Variable removeNpmrcIfExists : string -> World -> option error * World.
Variable WriteFile : string -> string -> World -> option error * World.
Variable npmrcPath : string -> string.
Implicit Types (com : CommonArgs World) (data : string) (w : World).

Local Abbreviation prepareConfigData' := (prepareConfigData isValidKey arrayEntries).
Local Abbreviation createTempNpmrc' :=
  (createTempNpmrc isValidKey arrayEntries removeNpmrcIfExists WriteFile npmrcPath).

Lemma prepareConfigData_workingDirectory com data :
  workingDirectory (snd (prepareConfigData' com data)) = workingDirectory com.
Proof. now rewrite prepareConfigData_state, fold_observe_frame. Qed.

Lemma createTempNpmrc_scan_failed com data (fetchErr : option error) w (err : error) :
  bufio.Err (bufio.NewScanner data) = Some err ->
  createTempNpmrc' com (data, fetchErr) w = (Some err, snd (prepareConfigData' com data), w).
Proof.
  intros Herr. unfold createTempNpmrc.
  now rewrite (prepareConfigData_failed _ _ _ _ Herr).
Qed.

Lemma createTempNpmrc_scanned com data (fetchErr : option error) w :
  bufio.Err (bufio.NewScanner data) = None ->
  createTempNpmrc' com (data, fetchErr) w
  = match removeNpmrcIfExists (workingDirectory com) w with
    | (Some err, w') => (Some err, snd (prepareConfigData' com data), w')
    | (None, w') =>
        (fst (WriteFile (npmrcPath (workingDirectory com))
                (strings.Join
                   (fst (scanLoop isValidKey arrayEntries com []
                           (bufio.tokens (bufio.NewScanner data)))) ""
                 ++ "json = " ++ strconv.FormatBool (jsonOutput com) ++ nl
                 ++ "registry = " ++ registry com ++ nl
                 ++ npmAuth com) w'),
         snd (prepareConfigData' com data),
         snd (WriteFile (npmrcPath (workingDirectory com))
                (strings.Join
                   (fst (scanLoop isValidKey arrayEntries com []
                           (bufio.tokens (bufio.NewScanner data)))) ""
                 ++ "json = " ++ strconv.FormatBool (jsonOutput com) ++ nl
                 ++ "registry = " ++ registry com ++ nl
                 ++ npmAuth com) w'))
    end.
Proof.
  intros Herr. unfold createTempNpmrc.
  pose proof (prepareConfigData_workingDirectory com data) as Hdir.
  rewrite (prepareConfigData_scanned _ _ _ _ Herr) in *. cbn [snd] in Hdir. rewrite Hdir.
  destruct (removeNpmrcIfExists (workingDirectory com) w) as [[err|] w']; [reflexivity|].
  destruct (WriteFile _ _ w') as [err w'']. reflexivity.
Qed.

End Files.

(** X10. When the dump has a line the scanner refuses (65536 bytes or
    more), [createTempNpmrc] returns the scanner's error and does nothing
    to the files: neither the removal of the old [.npmrc] nor the write
    takes place. *)
Theorem createTempNpmrc_scan_failure_keeps_files :
  forall (World : Type) (isValidKey : string -> bool)
         (arrayEntries : string -> string -> list string)
         (removeNpmrcIfExists : string -> World -> option error * World)
         (WriteFile : string -> string -> World -> option error * World)
         (npmrcPath : string -> string)
         (com : CommonArgs World) (data : string) (fetchErr : option error) (w : World),
    existsb bufio.tooLong (bufio.segments data) = true ->
    exists com' : CommonArgs World,
      createTempNpmrc isValidKey arrayEntries removeNpmrcIfExists WriteFile npmrcPath
        com (data, fetchErr) w
      = (Some bufio.ErrTooLong, com', w).
Proof.
  intros World isValidKey arrayEntries removeNpmrcIfExists WriteFile npmrcPath
         com data fetchErr w Hlong.
  eexists. apply createTempNpmrc_scan_failed.
  unfold bufio.NewScanner. now rewrite scan_Err, Hlong.
Qed.

Lemma createTempNpmrc_scan_failure_keeps_files_witness :
  exists com' : CommonArgs FileWorld,
    createTempNpmrc (allowList ["omit"]) npmrcArrayEntries removeFile writeFile joinPath
      (scenarioArgs restoreOk) (longLine 65536, None) (Some "registry = https://mine")
    = (Some bufio.ErrTooLong, com', Some "registry = https://mine").
Proof.
  apply (createTempNpmrc_scan_failure_keeps_files (allowList ["omit"]) npmrcArrayEntries
           removeFile writeFile joinPath (scenarioArgs restoreOk) (longLine 65536) None
           (Some "registry = https://mine")).
  vm_compute. reflexivity.
Defined.

(** X11. When removing the old [.npmrc] fails, [createTempNpmrc] returns
    that error and writes nothing: the result is the same whatever the
    write function would do, and the world is the one the removal left. *)
Theorem createTempNpmrc_removal_failure_writes_nothing :
  forall (World : Type) (isValidKey : string -> bool)
         (arrayEntries : string -> string -> list string)
         (removeNpmrcIfExists : string -> World -> option error * World)
         (WriteFile : string -> string -> World -> option error * World)
         (npmrcPath : string -> string)
         (com : CommonArgs World) (data : string) (fetchErr : option error)
         (w w' : World) (err : error),
    bufio.Err (bufio.NewScanner data) = None ->
    removeNpmrcIfExists (workingDirectory com) w = (Some err, w') ->
    createTempNpmrc isValidKey arrayEntries removeNpmrcIfExists WriteFile npmrcPath
      com (data, fetchErr) w
    = (Some err, snd (prepareConfigData isValidKey arrayEntries com data), w').
Proof.
  intros World isValidKey arrayEntries removeNpmrcIfExists WriteFile npmrcPath
         com data fetchErr w w' err Herr Hremove.
  rewrite createTempNpmrc_scanned by exact Herr. now rewrite Hremove.
Qed.

Lemma createTempNpmrc_removal_failure_writes_nothing_witness :
  createTempNpmrc (allowList ["omit"]) npmrcArrayEntries
    (fun (dir : string) (w : FileWorld) => (Some (errorString "permission denied"), w))
    writeFile joinPath
    (scenarioArgs restoreOk) ("omit = dev", None) (Some "registry = https://mine")
  = (Some (errorString "permission denied"),
     withTypeRestriction (scenarioArgs restoreOk) ProdOnly,
     Some "registry = https://mine").
Proof.
  apply (createTempNpmrc_removal_failure_writes_nothing (allowList ["omit"]) npmrcArrayEntries
           (fun (dir : string) (w : FileWorld) => (Some (errorString "permission denied"), w))
           writeFile joinPath (scenarioArgs restoreOk) "omit = dev" None
           (Some "registry = https://mine")); reflexivity.
Defined.

(** X12. When the dump is scanned and the old [.npmrc] is removed,
    [createTempNpmrc] writes once, to the [.npmrc] path of the working
    directory the receiver was called with, a text that ends with the
    three synthesized entries; it returns the error of that write, and the
    world the write left. *)
Theorem createTempNpmrc_writes_prepared_text :
  forall (World : Type) (isValidKey : string -> bool)
         (arrayEntries : string -> string -> list string)
         (removeNpmrcIfExists : string -> World -> option error * World)
         (WriteFile : string -> string -> World -> option error * World)
         (npmrcPath : string -> string)
         (com : CommonArgs World) (data : string) (fetchErr : option error)
         (w w' : World),
    bufio.Err (bufio.NewScanner data) = None ->
    removeNpmrcIfExists (workingDirectory com) w = (None, w') ->
    exists derived : string,
      createTempNpmrc isValidKey arrayEntries removeNpmrcIfExists WriteFile npmrcPath
        com (data, fetchErr) w
      = (fst (WriteFile (npmrcPath (workingDirectory com))
                (derived
                 ++ "json = " ++ strconv.FormatBool (jsonOutput com) ++ nl
                 ++ "registry = " ++ registry com ++ nl
                 ++ npmAuth com) w'),
         snd (prepareConfigData isValidKey arrayEntries com data),
         snd (WriteFile (npmrcPath (workingDirectory com))
                (derived
                 ++ "json = " ++ strconv.FormatBool (jsonOutput com) ++ nl
                 ++ "registry = " ++ registry com ++ nl
                 ++ npmAuth com) w')).
Proof.
  intros World isValidKey arrayEntries removeNpmrcIfExists WriteFile npmrcPath
         com data fetchErr w w' Herr Hremove.
  eexists. rewrite createTempNpmrc_scanned by exact Herr. rewrite Hremove.
  reflexivity.
Qed.

Lemma createTempNpmrc_writes_prepared_text_witness :
  exists derived : string,
    createTempNpmrc (allowList ["omit"]) npmrcArrayEntries removeFile
      (fun (path data : string) (w : FileWorld) =>
         (Some (errorString "disk full"), Some (path ++ ":" ++ data)))
      joinPath
      (scenarioArgs restoreOk) ("omit = dev", None) (Some "registry = https://mine")
    = (Some (errorString "disk full"),
       withTypeRestriction (scenarioArgs restoreOk) ProdOnly,
       Some ("/project/.npmrc:" ++ derived ++ "json = true" ++ nl
             ++ "registry = https://auth" ++ nl ++ "//auth.line")).
Proof.
  destruct (createTempNpmrc_writes_prepared_text (allowList ["omit"]) npmrcArrayEntries
              removeFile
              (fun (path data : string) (w : FileWorld) =>
                 (Some (errorString "disk full"), Some (path ++ ":" ++ data)))
              joinPath (scenarioArgs restoreOk) "omit = dev" None
              (Some "registry = https://mine") (w' := None) eq_refl eq_refl)
    as (derived & Hresult).
  exists derived. exact Hresult.
Defined.

(** ** The JSON flag *)

(** X14. The [json] entry of the output follows the answer of
    [npm config get json] as [setJsonOutput] stores it: it is
    [json = false] when the answer is exactly "false", and [json = true]
    for every other answer. When the query fails, [setJsonOutput] returns
    its error and leaves the receiver as it was. *)
Theorem json_entry_follows_answer :
  forall (World : Type) (isValidKey : string -> bool)
         (arrayEntries : string -> string -> list string)
         (com : CommonArgs World) (answer data : string),
    bufio.Err (bufio.NewScanner data) = None ->
    (forall err : error, setJsonOutput com (answer, Some err) = (Some err, com))
    /\ fst (setJsonOutput com (answer, None)) = None
    /\ exists derived : string,
        fst (prepareConfigData isValidKey arrayEntries
               (snd (setJsonOutput com (answer, None))) data)
        = inl (derived
               ++ "json = " ++ (if String.eqb answer "false" then "false" else "true") ++ nl
               ++ "registry = " ++ registry com ++ nl
               ++ npmAuth com).
Proof.
  intros World isValidKey arrayEntries com answer data Herr.
  split; [reflexivity|]. split; [reflexivity|].
  exists (strings.Join
            (fst (scanLoop isValidKey arrayEntries com []
                    (bufio.tokens (bufio.NewScanner data)))) "").
  rewrite (prepareConfigData_scanned _ _ _ _ Herr). cbn [fst snd setJsonOutput].
  rewrite (scanLoop_output isValidKey arrayEntries
             (withJsonOutput com (negb (String.eqb answer "false"))) com)
    by reflexivity.
  cbn [jsonOutput registry npmAuth withJsonOutput].
  destruct (String.eqb answer "false"); reflexivity.
Qed.

Lemma json_entry_follows_answer_witness :
  exists derived : string,
    fst (prepareConfigData (allowList ["omit"]) npmrcArrayEntries
           (snd (setJsonOutput (scenarioArgs restoreOk) ("False", None))) "omit = dev")
    = inl (derived ++ "json = true" ++ nl ++ "registry = https://auth" ++ nl ++ "//auth.line").
Proof.
  destruct (json_entry_follows_answer (allowList ["omit"]) npmrcArrayEntries
              (scenarioArgs restoreOk) "False" "omit = dev" eq_refl)
    as (_ & _ & derived & Hout).
  exists derived. exact Hout.
Defined.

(** ** The resolver step, again *)

(** X15. Observing the same pair twice in a row is the same as observing it
    once. *)
Theorem setTypeRestriction_twice :
  forall (World : Type) (com : CommonArgs World) (key value : string),
    setTypeRestriction (setTypeRestriction com key value) key value
    = setTypeRestriction com key value.
Proof.
  intros World com key value.
  destruct (String.eqb key "omit") eqn:Hkey.
  - unfold setTypeRestriction. rewrite Hkey.
    destruct (strings.Contains value "dev"); reflexivity.
  - apply String.eqb_neq in Hkey.
    destruct (TypeRestriction_eqb (typeRestriction (setTypeRestriction com key value))
                DefaultRestriction) eqn:Hafter.
    + apply TypeRestriction_eqb_eq in Hafter.
      assert (Hsame : setTypeRestriction com key value = com).
      { rewrite setTypeRestriction_frame, Hafter.
        destruct (TypeRestriction_eqb (typeRestriction com) DefaultRestriction) eqn:Hbefore.
        - apply TypeRestriction_eqb_eq in Hbefore. rewrite <- Hbefore.
          apply withTypeRestriction_same.
        - apply TypeRestriction_eqb_neq in Hbefore.
          now destruct (setTypeRestriction_never_unset com key value Hbefore). }
      now rewrite !Hsame.
    + apply TypeRestriction_eqb_neq in Hafter. now apply setTypeRestriction_kept.
Qed.

(** ** A failed restore is always visible *)

(** X16. When the restore function fails, the error [restoreNpmrcAndError]
    returns is not the original error either: its message starts with
    [Two errors occurred:] and is longer than both messages together, so a
    caller can always tell that restoring failed. The world is the one the
    restore function left. *)
Theorem restoreNpmrcAndError_failure_is_visible :
  forall (World : Type) (com : CommonArgs World) (err restoreErr : error) (w w' : World),
    restoreNpmrcFunc com w = (Some restoreErr, w') ->
    fst (restoreNpmrcAndError com err w) <> err
    /\ strings.HasPrefix (Error (fst (restoreNpmrcAndError com err w))) "Two errors occurred:"
       = true
    /\ String.length (Error restoreErr) + String.length (Error err)
       < String.length (Error (fst (restoreNpmrcAndError com err w)))
    /\ snd (restoreNpmrcAndError com err w) = w'.
Proof.
  intros World com err restoreErr w w' Hrestore.
  unfold restoreNpmrcAndError. rewrite Hrestore. unfold errorutils.CheckErrorf.
  cbn [fst snd Error].
  assert (Hlength :
            String.length (Error restoreErr) + String.length (Error err)
            < String.length ("Two errors occurred:" ++ nl ++ " " ++ Error restoreErr
                             ++ nl ++ " " ++ Error err)).
  { rewrite !length_append. simpl. lia. }
  split; [|split; [|split]].
  - intros Heq. apply (f_equal Error) in Heq. cbn [Error] in Heq.
    rewrite Heq in Hlength. lia.
  - apply HasPrefix_append.
  - exact Hlength.
  - reflexivity.
Qed.

Lemma restoreNpmrcAndError_failure_is_visible_witness :
  fst (restoreNpmrcAndError (scenarioArgs restoreFails) (errorString "write failed") None)
  <> errorString "write failed".
Proof.
  apply (restoreNpmrcAndError_failure_is_visible (scenarioArgs restoreFails)
           (errorString "write failed") (restoreErr := errorString "rename failed")
           None (w' := None) eq_refl).
Defined.
